(** * The blog controller of the MERN blog service

  A shallow embedding of [controller/blogController.js]: the handlers
  [create], [getById], [update] and [delete], the Joi schemas they check,
  the two inline fragments that recover a Cloudinary public id from a
  stored photo URL, and the collaborators they call (the Cloudinary
  uploader, the [Blog] and [Comment] Mongoose models), as a state and
  exception monad over an explicit world. *)

From stdpp Require Import base option list strings gmap fin_maps.
From Stdlib Require Import Ascii.

(** ** JavaScript strings and arrays *)

Module Js.

(** [s.split(sep)] for a one-character separator: the pieces between the
    occurrences of [sep], in order; a string without [sep] (the empty
    string too) gives a one-element array. *)
Fixpoint split (sep : ascii) (s : string) : list string :=
  match s with
  | EmptyString => [EmptyString]
  | String c rest =>
      if Ascii.eqb c sep then EmptyString :: split sep rest
      else match split sep rest with
           | [] => [String c EmptyString]
           | piece :: pieces => String c piece :: pieces
           end
  end.

(** [a.pop()]: the last element ([None] is [undefined], on an empty
    array) together with the array as the call leaves it. *)
Definition pop {A : Type} (a : list A) : option A * list A :=
  (last a, removelast a).

(** A value that is a string or [undefined], as a template literal prints
    it. *)
Definition to_text (v : option string) : string :=
  match v with
  | Some s => s
  | None => "undefined"
  end.

(** The text of [s] before its last occurrence of [c], when there is one. *)
Fixpoint before_last (c : ascii) (s : string) : option string :=
  match s with
  | EmptyString => None
  | String a rest =>
      match before_last c rest with
      | Some p => Some (String a p)
      | None => if Ascii.eqb a c then Some EmptyString else None
      end
  end.

(** Does [c] occur in [s]? *)
Fixpoint occurs (c : ascii) (s : string) : bool :=
  match s with
  | EmptyString => false
  | String a rest => Ascii.eqb a c || occurs c rest
  end.

End Js.

(** ** Errors, documents and the world *)

(** How a value breaks a Joi rule. *)
Inductive Violation := Required | EmptyString_ | PatternMismatch | NotAllowed.

(** What a handler can catch or pass to [next]. [ValidationError] names the
    offending key ([None] when the body has a key the schema does not list). *)
Inductive Error :=
| ValidationError (key : option string) (v : Violation)
| AssetStoreError (msg : string)
| StoreError (msg : string)
| TypeError (msg : string).

(** Modelled from the spec: the schema of [models/blog.js] is not among the
    sources. A blog post has a title, an author reference, a content and a
    photo reference (section 3), here under the field names that the
    controller reads and writes; its [_id] is the key it is stored under. *)
Record Blog := mkBlog {
  title : string;
  author : string;
  content : string;
  photoPath : string;
}.

(** Modelled from the spec: the schema of [models/comment.js] is not among
    the sources. A comment has a text, an author and a reference to the post
    it belongs to (section 3); [delete] selects comments by that reference,
    the field [blog]. *)
Record Comment := mkComment {
  comment_content : string;
  comment_blog : string;
  comment_author : string;
}.

(** What [cloudinary.uploader.upload] resolves to. *)
Record UploadResponse := mkUploadResponse {
  url : string;
  public_id : string;
}.

(** Every call that leaves the controller, in the order it is made. *)
Inductive Event :=
| CloudinaryUpload (photo : string)
| CloudinaryDestroy (publicId : option string)
| ConsoleError (label : string) (e : Error)
| ConsoleLog (label : string) (result : option string)
| BlogFindOne (id : string)
| BlogSave (doc : Blog)
| BlogUpdateOne (id : string) (title content photoPath : string)
| BlogDeleteOne (id : string)
| CommentDeleteMany (blog : string).

(** The document store, the asset store (the public ids it holds) and the
    calls made so far. *)
Record World := mkWorld {
  blogs : gmap string Blog;
  comments : list Comment;
  assets : gset string;
  trace : list Event;
}.

(** How the two services answer: the reply of an upload, and for every other
    call whether it fails. *)
Record Env := mkEnv {
  upload_reply : string -> Error + UploadResponse;
  destroy_fault : option string -> option Error;
  findOne_fault : string -> option Error;
  save_reply : Blog -> Error + string;
  updateOne_fault : string -> option Error;
  deleteOne_fault : string -> option Error;
  deleteMany_fault : string -> option Error;
}.

(** ** Awaited calls: state and exceptions *)

Inductive Outcome (A : Type) :=
| Done (a : A)
| Thrown (e : Error).

Arguments Done {A} a.
Arguments Thrown {A} e.

Definition M (A : Type) : Type := World -> Outcome A * World.

Definition ret {A} (a : A) : M A := fun w => (Done a, w).

Definition throw {A} (e : Error) : M A := fun w => (Thrown e, w).

Definition bind {A B} (m : M A) (k : A -> M B) : M B :=
  fun w => match m w with
           | (Done a, w') => k a w'
           | (Thrown e, w') => (Thrown e, w')
           end.

(** [try { m } catch (e) { ... }], with the caught error handed to the code
    that follows. *)
Definition attempt {A} (m : M A) : M (Error + A) :=
  fun w => match m w with
           | (Done a, w') => (Done (inr a), w')
           | (Thrown e, w') => (Done (inl e), w')
           end.

Definition emit (ev : Event) : M unit :=
  fun w => (Done tt, mkWorld (blogs w) (comments w) (assets w) (trace w ++ [ev])).

(** The world [w] after the calls [evs], none of which changed a store. *)
Definition logged (w : World) (evs : list Event) : World :=
  mkWorld (blogs w) (comments w) (assets w) (trace w ++ evs).

Notation "x <-- m ;; k" := (bind m (fun x => k))
  (at level 100, m at next level, right associativity).
Notation "m ;;; k" := (bind m (fun _ => k))
  (at level 100, right associativity).

(** ** Joi schemas over a body of string members *)

(** [Joi.string()], with [.required()] and [.regex(p)] when present. A plain
    [Joi.string()] refuses the empty string. *)
Record Rule := mkRule {
  required : bool;
  regex : option (string -> bool);
}.

Definition is_hex (c : ascii) : bool :=
  let n := nat_of_ascii c in
  ((48 <=? n)%nat && (n <=? 57)%nat)
  || ((97 <=? n)%nat && (n <=? 102)%nat)
  || ((65 <=? n)%nat && (n <=? 70)%nat).

Fixpoint all_chars (p : ascii -> bool) (s : string) : bool :=
  match s with
  | EmptyString => true
  | String c rest => p c && all_chars p rest
  end.

(** [/^[0-9a-fA-F]{24}$/] *)
Definition mongodbIdPattern (s : string) : bool :=
  (String.length s =? 24)%nat && all_chars is_hex s.

Definition check_value (key : string) (r : Rule) (v : option string) : option Error :=
  match v with
  | None => if required r then Some (ValidationError (Some key) Required) else None
  | Some EmptyString => Some (ValidationError (Some key) EmptyString_)
  | Some s =>
      match regex r with
      | Some p => if p s then None else Some (ValidationError (Some key) PatternMismatch)
      | None => None
      end
  end.

(** The keys of the schema are checked in the order they are written, and
    the first error ends the validation. *)
Fixpoint check_keys (schema : list (string * Rule)) (body : gmap string string) : option Error :=
  match schema with
  | [] => None
  | (key, r) :: rest =>
      match check_value key r (body !! key) with
      | Some error => Some error
      | None => check_keys rest body
      end
  end.

(** A key of the body that the schema does not list is an error, reported
    after the listed keys. *)
Definition unknown_keys (schema : list (string * Rule)) (body : gmap string string) : gset string :=
  dom body ∖ list_to_set (schema.*1).

Definition validate (schema : list (string * Rule)) (body : gmap string string) : option Error :=
  match check_keys schema body with
  | Some error => Some error
  | None =>
      if decide (unknown_keys schema body = ∅) then None
      else Some (ValidationError None NotAllowed)
  end.

Definition createBlogSchema : list (string * Rule) :=
  [ ("title", mkRule true None);
    ("author", mkRule true (Some mongodbIdPattern));
    ("content", mkRule true None);
    ("photo", mkRule true None) ].

Definition getByIdSchema : list (string * Rule) :=
  [ ("id", mkRule true (Some mongodbIdPattern)) ].

Definition updateBlogSchema : list (string * Rule) :=
  [ ("title", mkRule true None);
    ("content", mkRule true None);
    ("author", mkRule true (Some mongodbIdPattern));
    ("blogId", mkRule true (Some mongodbIdPattern));
    ("photo", mkRule false None) ].

Definition deleteBlogSchema : list (string * Rule) :=
  [ ("id", mkRule true (Some mongodbIdPattern)) ].

(** ** The public id of a stored photo URL *)

(** The fragment of [update] (lines 173-182): two [pop]s, of which only the
    first is used. Calling [split] on [undefined] is a [TypeError]; element 0
    of an empty array is [undefined]. *)
Definition update_publicId (photoUrl : string) : M (option string) :=
  let urlParts := Js.split "/" photoUrl in
  let '(publicIdWithExtension, urlParts) := Js.pop urlParts in
  let '(versionedPublicId, urlParts) := Js.pop urlParts in
  match publicIdWithExtension with
  | None => throw (TypeError "Cannot read properties of undefined (reading 'split')")
  | Some publicIdWithExtension => ret (Js.split "." publicIdWithExtension !! 0%nat)
  end.

(** The fragment of [delete] (lines 254-256). *)
Definition delete_publicId (photoUrl : string) : M (option string) :=
  let urlParts := Js.split "/" photoUrl in
  let '(publicIdWithExtension, urlParts) := Js.pop urlParts in
  match publicIdWithExtension with
  | None => throw (TypeError "Cannot read properties of undefined (reading 'split')")
  | Some publicIdWithExtension => ret (Js.split "." publicIdWithExtension !! 0%nat)
  end.

(** What both fragments compute: the text of the last path segment up to
    its first dot. *)
Definition first_piece_of_last_segment (photoUrl : string) : option string :=
  match last (Js.split "/" photoUrl) with
  | Some segment => Js.split "." segment !! 0%nat
  | None => None
  end.

(** What section 4.2 of the specification describes: the last path segment
    without its file-extension suffix, the suffix being what starts at the
    last dot of the segment. *)
Definition decode_as_specified (accessUrl : string) : option string :=
  match last (Js.split "/" accessUrl) with
  | None => None
  | Some segment =>
      match Js.before_last "." segment with
      | Some stem => Some stem
      | None => Some segment
      end
  end.

(** ** Responses *)

Inductive Body (SummaryDTO DetailsDTO : Type) :=
| Message (message : string)
| BlogSummary (blog : SummaryDTO)
| BlogDetails (blog : DetailsDTO).

Arguments Message {SummaryDTO DetailsDTO} message.
Arguments BlogSummary {SummaryDTO DetailsDTO} blog.
Arguments BlogDetails {SummaryDTO DetailsDTO} blog.

(** What a handler does with the request: [next(error)] or
    [res.status(code).json(body)]. A handler that ends in [Thrown e] has done
    neither: its promise is rejected with [e]. *)
Inductive Response (SummaryDTO DetailsDTO : Type) :=
| Next (error : Error)
| Status (code : nat) (body : Body SummaryDTO DetailsDTO).

Arguments Next {SummaryDTO DetailsDTO} error.
Arguments Status {SummaryDTO DetailsDTO} code body.

(** ** The collaborators and the handlers *)

Section Controller.

(** The answers of Cloudinary and MongoDB. *)
Variable env : Env.

(** The [User] collection, which [populate] reads, and the two projection
    classes [dto/blog.js] and [dto/blog-details.js]. Their source is not part
    of the files at hand, so the handlers are modelled for every [User]
    collection and every pair of constructors; a constructor may throw. *)
Variables User SummaryDTO DetailsDTO : Type.
Variable users : gmap string User.
Variable BlogDTO : string -> Blog -> Error + SummaryDTO.
Variable BlogDetailsDTO : option (string * Blog * option User) -> Error + DetailsDTO.

Definition set_blogs (f : gmap string Blog -> gmap string Blog) : M unit :=
  fun w => (Done tt, mkWorld (f (blogs w)) (comments w) (assets w) (trace w)).

Definition set_comments (f : list Comment -> list Comment) : M unit :=
  fun w => (Done tt, mkWorld (blogs w) (f (comments w)) (assets w) (trace w)).

Definition set_assets (f : gset string -> gset string) : M unit :=
  fun w => (Done tt, mkWorld (blogs w) (comments w) (f (assets w)) (trace w)).

Definition get_blogs : M (gmap string Blog) := fun w => (Done (blogs w), w).

Definition get_assets : M (gset string) := fun w => (Done (assets w), w).

Definition console_error (label : string) (e : Error) : M unit :=
  emit (ConsoleError label e).

Definition console_log (label : string) (result : option string) : M unit :=
  emit (ConsoleLog label result).

(** [cloudinary.uploader.upload(photo)]: the promise resolves to the reply
    once the asset is stored, and is rejected when the upload fails. *)
Definition uploader_upload (photo : string) : M UploadResponse :=
  emit (CloudinaryUpload photo) ;;;
  match upload_reply env photo with
  | inl error => throw error
  | inr response =>
      set_assets (fun a => {[public_id response]} ∪ a) ;;;
      ret response
  end.

(** [cloudinary.uploader.destroy(publicId, callback)]. The SDK returns a
    promise and settles it whether or not a callback is given (it stops doing
    so only under its [disable_promises] option, which the controller does
    not set), and it calls the callback when there is one. On failure the
    callback receives the error and the promise is rejected with it: this
    rejection is what the [try] around the call in [update] catches.
    Otherwise the callback receives the result and the promise resolves to
    it; the result is [ok] when an asset was removed and [not found] when
    there was none to remove. *)
Definition uploader_destroy (publicId : option string)
    (callback : option (option Error -> option string -> M unit)) : M string :=
  emit (CloudinaryDestroy publicId) ;;;
  match destroy_fault env publicId with
  | Some error =>
      match callback with
      | Some f => f (Some error) None
      | None => ret tt
      end ;;;
      throw error
  | None =>
      a <-- get_assets ;;
      let result :=
        match publicId with
        | Some p => if decide (p ∈ a) then "ok" else "not found"
        | None => "not found"
        end in
      match publicId with
      | Some p => set_assets (fun a => a ∖ {[p]})
      | None => ret tt
      end ;;;
      match callback with
      | Some f => f None (Some result)
      | None => ret tt
      end ;;;
      ret result
  end.

(** [Blog.findOne({ _id: id })] *)
Definition Blog_findOne (id : string) : M (option Blog) :=
  emit (BlogFindOne id) ;;;
  match findOne_fault env id with
  | Some error => throw error
  | None => b <-- get_blogs ;; ret (b !! id)
  end.

(** [Blog.findOne({ _id: id }).populate("author")] *)
Definition Blog_findOne_populate (id : string) : M (option (string * Blog * option User)) :=
  blog <-- Blog_findOne id ;;
  match blog with
  | None => ret None
  | Some blog => ret (Some (id, blog, users !! author blog))
  end.

(** [newBlog.save()]: the document is inserted under its new [_id], which
    the collection refuses when it is already taken. *)
Definition Blog_save (newBlog : Blog) : M string :=
  emit (BlogSave newBlog) ;;;
  match save_reply env newBlog with
  | inl error => throw error
  | inr id =>
      b <-- get_blogs ;;
      match b !! id with
      | Some _ => throw (StoreError "E11000 duplicate key error")
      | None => set_blogs (insert id newBlog) ;;; ret id
      end
  end.

(** [Blog.updateOne({ _id: id }, { title, content, photoPath })]: the three
    fields of the matching document are set, the others stay. *)
Definition Blog_updateOne (id title content photoPath : string) : M unit :=
  emit (BlogUpdateOne id title content photoPath) ;;;
  match updateOne_fault env id with
  | Some error => throw error
  | None => set_blogs (alter (fun b => mkBlog title (author b) content photoPath) id)
  end.

(** [Blog.deleteOne({ _id: id })] *)
Definition Blog_deleteOne (id : string) : M unit :=
  emit (BlogDeleteOne id) ;;;
  match deleteOne_fault env id with
  | Some error => throw error
  | None => set_blogs (delete id)
  end.

(** [Comment.deleteMany({ blog: id })] *)
Definition Comment_deleteMany (id : string) : M unit :=
  emit (CommentDeleteMany id) ;;;
  match deleteMany_fault env id with
  | Some error => throw error
  | None => set_comments (filter (fun c => comment_blog c ≠ id))
  end.

Definition new_BlogDTO (id : string) (blog : Blog) : M SummaryDTO :=
  match BlogDTO id blog with
  | inl error => throw error
  | inr dto => ret dto
  end.

Definition new_BlogDetailsDTO (blog : option (string * Blog * option User)) : M DetailsDTO :=
  match BlogDetailsDTO blog with
  | inl error => throw error
  | inr dto => ret dto
  end.

Local Notation "'Reply'" := (Response SummaryDTO DetailsDTO).

(** [blogController.create] (lines 26-86) *)
Definition create (body : gmap string string) : M Reply :=
  match validate createBlogSchema body with
  | Some error => ret (Next error)
  | None =>
      let title := body !!! "title" in
      let author := body !!! "author" in
      let content := body !!! "content" in
      let photo := body !!! "photo" in
      r <-- attempt (uploader_upload photo) ;;
      match r with
      | inl error => ret (Next error)
      | inr response =>
          r <-- attempt (let newBlog := mkBlog title author content (url response) in
                         id <-- Blog_save newBlog ;;
                         ret (id, newBlog)) ;;
          match r with
          | inl error => ret (Next error)
          | inr (id, newBlog) =>
              blogDto <-- new_BlogDTO id newBlog ;;
              ret (Status 201 (BlogSummary blogDto))
          end
      end
  end.

(** [blogController.getById] (lines 103-130) *)
Definition getById (params : gmap string string) : M Reply :=
  match validate getByIdSchema params with
  | Some error => ret (Next error)
  | None =>
      let id := params !!! "id" in
      r <-- attempt (Blog_findOne_populate id) ;;
      match r with
      | inl error => ret (Next error)
      | inr blog =>
          blogDto <-- new_BlogDetailsDTO blog ;;
          ret (Status 200 (BlogDetails blogDto))
      end
  end.

(** Step 2 of [update] (lines 169-197): the old photo is removed when the
    stored path is not empty; a failed removal is printed and dropped. *)
Definition update_remove_old (blog : Blog) : M unit :=
  match photoPath blog with
  | EmptyString => ret tt
  | photoUrl =>
      publicId <-- update_publicId photoUrl ;;
      r <-- attempt (uploader_destroy publicId None) ;;
      match r with
      | inl cloudinaryError =>
          console_error "Cloudinary old image deletion error:" cloudinaryError
      | inr _ => ret tt
      end
  end.

(** [blogController.update] (lines 131-226). The inner result is [inl] for
    the [return next(uploadError)] of line 206 and [inr] for the path that
    reaches step 4. *)
Definition update (body : gmap string string) : M Reply :=
  match validate updateBlogSchema body with
  | Some error => ret (Next error)
  | None =>
      let title := body !!! "title" in
      let content := body !!! "content" in
      let author := body !!! "author" in
      let blogId := body !!! "blogId" in
      let photo := body !! "photo" in
      r <-- attempt (Blog_findOne blogId) ;;
      match r with
      | inl error => ret (Next error)
      | inr None => ret (Status 404 (Message "Blog not found"))
      | inr (Some blog) =>
          let newPhotoPath := photoPath blog in
          r <-- match photo with
                | None | Some EmptyString => ret (inr newPhotoPath)
                | Some photo =>
                    update_remove_old blog ;;;
                    r <-- attempt (uploader_upload photo) ;;
                    match r with
                    | inl uploadError => ret (inl (Next uploadError))
                    | inr response => ret (inr (url response))
                    end
                end ;;
          match r with
          | inl returned => ret returned
          | inr newPhotoPath =>
              r <-- attempt (Blog_updateOne blogId title content newPhotoPath) ;;
              match r with
              | inl dbError => ret (Next dbError)
              | inr _ => ret (Status 200 (Message "blog updated!"))
              end
          end
      end
  end.

(** The callback that [delete] hands to [destroy] (lines 262-270). *)
Definition delete_callback (publicId : option string)
    (error : option Error) (result : option string) : M unit :=
  match error with
  | Some error => console_error "Cloudinary deletion error:" error
  | None => ret tt
  end ;;;
  console_log ("Cloudinary result for " +:+ Js.to_text publicId +:+ ":") result.

(** [blogController.delete] (lines 227-282). The whole of steps 2 to 5 is one
    [try] block; [Some] is the [return] of line 246 inside it. *)
Definition delete (params : gmap string string) : M Reply :=
  match validate deleteBlogSchema params with
  | Some error => ret (Next error)
  | None =>
      let id := params !!! "id" in
      r <-- attempt (
              blogToDelete <-- Blog_findOne id ;;
              match blogToDelete with
              | None => ret (Some (Status 404 (Message "Blog not found")))
              | Some blogToDelete =>
                  let photoUrl := photoPath blogToDelete in
                  publicId <-- delete_publicId photoUrl ;;
                  uploader_destroy publicId (Some (delete_callback publicId)) ;;;
                  Blog_deleteOne id ;;;
                  Comment_deleteMany id ;;;
                  ret None
              end) ;;
      match r with
      | inl error => ret (Next error)
      | inr (Some returned) => ret returned
      | inr None => ret (Status 200 (Message "Blog deleted successfully!"))
      end
  end.

End Controller.

Arguments create env {SummaryDTO} DetailsDTO BlogDTO body.
Arguments getById env {User} SummaryDTO {DetailsDTO} users BlogDetailsDTO params.
Arguments Blog_findOne_populate env {User} users id.
Arguments new_BlogDTO {SummaryDTO} BlogDTO id blog.
Arguments new_BlogDetailsDTO {User DetailsDTO} BlogDetailsDTO blog.

(** ** Listing the posts *)

(** What [getAll] does with the request: [next(error)] or
    [res.status(code).json({ blogs })]. *)
Inductive ListResponse (SummaryDTO : Type) :=
| ListNext (error : Error)
| ListStatus (code : nat) (blogs : list SummaryDTO).

Arguments ListNext {SummaryDTO} error.
Arguments ListStatus {SummaryDTO} code blogs.

Section Listing.

Variable SummaryDTO : Type.
Variable BlogDTO : string -> Blog -> Error + SummaryDTO.

(** The loop of [getAll] (lines 93-96): the documents are projected in the
    order of the array, each projection pushed at the end of [blogsDto]. *)
Fixpoint getAll_loop (blogs : list (string * Blog)) (blogsDto : list SummaryDTO)
    : M (list SummaryDTO) :=
  match blogs with
  | [] => ret blogsDto
  | (id, blog) :: rest =>
      dto <-- new_BlogDTO BlogDTO id blog ;;
      getAll_loop rest (blogsDto ++ [dto])
  end.

(** [blogController.getAll] (lines 87-102). [Blog.find({})] is the only call
    of the handler and the world keeps no record of it: [found] is what the
    call resolves to, the documents with their ids, or the error it is
    rejected with. The lookup, the loop and the answer are one [try] block. *)
Definition getAll (found : Error + list (string * Blog)) : M (ListResponse SummaryDTO) :=
  r <-- attempt (
          blogs <-- match found with
                    | inl error => throw error
                    | inr blogs => ret blogs
                    end ;;
          blogsDto <-- getAll_loop blogs [] ;;
          ret (ListStatus 200 blogsDto)) ;;
  match r with
  | inl error => ret (ListNext error)
  | inr returned => ret returned
  end.

End Listing.

Arguments getAll_loop {SummaryDTO} BlogDTO blogs blogsDto.
Arguments getAll {SummaryDTO} BlogDTO found.

(** ** What a handler leaves alone *)

(** [m] takes every world to a world that [R] relates to it, however it
    ends. *)
Definition preserves {A : Type} (R : World -> World -> Prop) (m : M A) : Prop :=
  forall w, R w (m w).2.

(** A relation that [preserves] can carry through a handler: every world is
    related to itself and to what it is after one more call is recorded,
    and the relation composes. *)
Definition frame_relation (R : World -> World -> Prop) : Prop :=
  (forall w, R w w)
  /\ (forall w1 w2 w3, R w1 w2 -> R w2 w3 -> R w1 w3)
  /\ (forall w ev, R w (logged w [ev])).

(** Nothing is stored, changed or removed. *)
Definition stores_kept (w w' : World) : Prop :=
  blogs w' = blogs w /\ comments w' = comments w /\ assets w' = assets w.

(** Every stored document and comment is kept, and no asset is removed. *)
Definition documents_kept (w w' : World) : Prop :=
  (forall k b, blogs w !! k = Some b -> blogs w' !! k = Some b)
  /\ comments w' = comments w
  /\ assets w ⊆ assets w'.

(** The same ids are stored, only the document [id] may differ, its author
    is the same, and the comments are kept. *)
Definition only_rewrites (id : string) (w w' : World) : Prop :=
  dom (blogs w') = dom (blogs w)
  /\ (forall k, k ≠ id -> blogs w' !! k = blogs w !! k)
  /\ author <$> blogs w' !! id = author <$> blogs w !! id
  /\ comments w' = comments w.

(** No document appears or changes, only the document [id] may go, and
    with it only comments on [id]; no asset appears. *)
Definition only_removes (id : string) (w w' : World) : Prop :=
  (forall k, k ≠ id -> blogs w' !! k = blogs w !! k)
  /\ (blogs w' !! id = blogs w !! id \/ blogs w' !! id = None)
  /\ filter (fun c => comment_blog c ≠ id) (comments w')
     = filter (fun c => comment_blog c ≠ id) (comments w)
  /\ (forall c, c ∈ comments w' -> c ∈ comments w)
  /\ assets w' ⊆ assets w.

(** ** Worlds and requests used in the examples *)

Module Sample.

Definition post_id : string := "64b7f1e2a3c4d5e6f7a8b9c0".
Definition other_id : string := "0123456789abcdefABCDEF01".
Definition alice : string := "507f1f77bcf86cd799439011".
Definition bob : string := "507f191e810c19729de860ea".

Definition old_url : string :=
  "http://res.cloudinary.com/demo/image/upload/v1678822000/sample_old.jpg".
Definition new_url : string :=
  "http://res.cloudinary.com/demo/image/upload/v1700000000/sample_new.png".
Definition dotted_url : string :=
  "http://res.cloudinary.com/demo/image/upload/v1678822000/abc.v2.jpg".

Definition post : Blog := mkBlog "Hello" alice "World" old_url.
Definition dotted_post : Blog := mkBlog "Hello" alice "World" dotted_url.

Definition note (on : string) (text : string) : Comment := mkComment text on bob.

(** One post with three comments, and a comment on another post. *)
Definition world : World :=
  mkWorld {[ post_id := post ]}
          [note post_id "first"; note other_id "elsewhere"; note post_id "second";
           note post_id "third"]
          {[ "sample_old" ]}
          [].

Definition dotted_world : World :=
  mkWorld {[ post_id := dotted_post ]} [] {[ "abc.v2" ]} [].

Definition network_down : Error := AssetStoreError "ECONNRESET".
Definition store_down : Error := StoreError "connection closed".

(** Both services answer every call. *)
Definition healthy : Env :=
  mkEnv (fun _ => inr (mkUploadResponse new_url "sample_new"))
        (fun _ => None) (fun _ => None)
        (fun _ => inr other_id)
        (fun _ => None) (fun _ => None) (fun _ => None).

(** Cloudinary refuses to remove assets. *)
Definition destroy_fails : Env :=
  mkEnv (upload_reply healthy) (fun _ => Some network_down) (findOne_fault healthy)
        (save_reply healthy) (updateOne_fault healthy) (deleteOne_fault healthy)
        (deleteMany_fault healthy).

(** Cloudinary refuses uploads and removals alike. *)
Definition cloudinary_down : Env :=
  mkEnv (fun _ => inl network_down) (fun _ => Some network_down) (findOne_fault healthy)
        (save_reply healthy) (updateOne_fault healthy) (deleteOne_fault healthy)
        (deleteMany_fault healthy).

(** Uploads succeed and inserts fail. *)
Definition insert_fails : Env :=
  mkEnv (upload_reply healthy) (destroy_fault healthy) (findOne_fault healthy)
        (fun _ => inl store_down) (updateOne_fault healthy) (deleteOne_fault healthy)
        (deleteMany_fault healthy).

(** A projection for the examples: the summary is the document with its id,
    the details add the populated author, and the details of [null] throw. *)
Definition Summary : Type := string * Blog.
Definition Details : Type := string * Blog * option string.

Definition summary (id : string) (b : Blog) : Error + Summary := inr (id, b).

Definition details (b : option (string * Blog * option string)) : Error + Details :=
  match b with
  | Some d => inr d
  | None => inl (TypeError "Cannot read properties of null (reading '_id')")
  end.

Definition users : gmap string string := {[ alice := "alice"; bob := "bob" ]}.

Definition create_body : gmap string string :=
  {[ "title" := "Hello"; "author" := alice; "content" := "World";
     "photo" := "data:image/png;base64,iVBORw0KGgo=" ]}.

Definition update_body : gmap string string :=
  {[ "title" := "Hello again"; "content" := "New world"; "author" := bob;
     "blogId" := post_id ]}.

Definition update_body_with_photo : gmap string string :=
  <[ "photo" := "data:image/png;base64,AAAA" ]> update_body.

Definition update_body_absent : gmap string string :=
  {[ "title" := "Hello again"; "content" := "New world"; "author" := bob;
     "blogId" := other_id ]}.

Definition id_params (id : string) : gmap string string := {[ "id" := id ]}.

(** A post stored without a photo path. *)
Definition bare_post : Blog := mkBlog "Hello" alice "World" "".

Definition bare_world : World :=
  mkWorld {[ post_id := bare_post ]} [note post_id "first"] ∅ [].

(** MongoDB refuses [updateOne]. *)
Definition update_fails : Env :=
  mkEnv (upload_reply healthy) (destroy_fault healthy) (findOne_fault healthy)
        (save_reply healthy) (fun _ => Some store_down) (deleteOne_fault healthy)
        (deleteMany_fault healthy).

(** MongoDB refuses [deleteOne]. *)
Definition deleteOne_fails : Env :=
  mkEnv (upload_reply healthy) (destroy_fault healthy) (findOne_fault healthy)
        (save_reply healthy) (updateOne_fault healthy) (fun _ => Some store_down)
        (deleteMany_fault healthy).

(** MongoDB refuses [deleteMany]. *)
Definition deleteMany_fails : Env :=
  mkEnv (upload_reply healthy) (destroy_fault healthy) (findOne_fault healthy)
        (save_reply healthy) (updateOne_fault healthy) (deleteOne_fault healthy)
        (fun _ => Some store_down).

Definition upload_prefix : string :=
  "http://res.cloudinary.com/demo/image/upload/v1678822000".

Definition update_body_empty_photo : gmap string string :=
  <[ "photo" := "" ]> update_body.

(** A summary projection that throws on a document without a photo path. *)
Definition strict_summary (id : string) (b : Blog) : Error + Summary :=
  match photoPath b with
  | EmptyString => inl (TypeError "photoPath is empty")
  | _ => inr (id, b)
  end.

Definition found_posts : list (string * Blog) :=
  [(post_id, post); (other_id, dotted_post)].

Definition found_with_bare_post : list (string * Blog) :=
  [(post_id, post); (alice, bare_post); (other_id, dotted_post)].

(** MongoDB fails every lookup. *)
Definition lookup_fails : Env :=
  mkEnv (upload_reply healthy) (destroy_fault healthy) (fun _ => Some store_down)
        (save_reply healthy) (updateOne_fault healthy) (deleteOne_fault healthy)
        (deleteMany_fault healthy).

End Sample.

(** * Properties *)

(** ** Splitting and the public id *)

Lemma split_not_nil sep s : Js.split sep s <> [].
Proof.
  destruct s as [|c rest]; simpl; [easy|].
  destruct (Ascii.eqb c sep); [easy|].
  destruct (Js.split sep rest); easy.
Qed.

Lemma last_split_is_Some sep s : is_Some (last (Js.split sep s)).
Proof.
  pose proof (split_not_nil sep s) as Hne.
  destruct (Js.split sep s) as [|x l] eqn:E; [easy|].
  rewrite last_is_Some. easy.
Qed.

(** The first piece of a split has no separator in it. *)
Lemma split_first_piece sep s :
  exists piece pieces, Js.split sep s = piece :: pieces /\ Js.occurs sep piece = false.
Proof.
  induction s as [|c rest IH]; simpl.
  - eexists _, _. split; [reflexivity|reflexivity].
  - destruct (Ascii.eqb c sep) eqn:E.
    + eexists _, _. split; reflexivity.
    + destruct IH as (piece & pieces & -> & Hocc).
      eexists _, _. split; [reflexivity|]. simpl. rewrite E. exact Hocc.
Qed.

(** A string without the separator is the only piece of its split. *)
Lemma split_without_sep sep s : Js.occurs sep s = false -> Js.split sep s = [s].
Proof.
  induction s as [|c rest IH]; simpl; [reflexivity|].
  intros H. apply orb_false_iff in H as [Hc Hrest].
  rewrite Hc, (IH Hrest). reflexivity.
Qed.

Lemma update_publicId_eq photoUrl w :
  update_publicId photoUrl w = (Done (first_piece_of_last_segment photoUrl), w).
Proof.
  unfold update_publicId, first_piece_of_last_segment, Js.pop.
  destruct (last_split_is_Some "/" photoUrl) as [segment ->]. reflexivity.
Qed.

Lemma delete_publicId_eq photoUrl w :
  delete_publicId photoUrl w = (Done (first_piece_of_last_segment photoUrl), w).
Proof.
  unfold delete_publicId, first_piece_of_last_segment, Js.pop.
  destruct (last_split_is_Some "/" photoUrl) as [segment ->]. reflexivity.
Qed.

(** The public id is never [undefined] and never contains a dot. *)
Lemma first_piece_defined photoUrl :
  exists publicId,
    first_piece_of_last_segment photoUrl = Some publicId
    /\ Js.occurs "." publicId = false.
Proof.
  unfold first_piece_of_last_segment.
  destruct (last_split_is_Some "/" photoUrl) as [segment ->].
  destruct (split_first_piece "." segment) as (piece & pieces & -> & Hocc).
  exists piece. split; [reflexivity|exact Hocc].
Qed.

(** ** The collaborators, call by call *)

Lemma logged_logged w evs evs' : logged (logged w evs) evs' = logged w (evs ++ evs').
Proof. unfold logged; simpl. by rewrite app_assoc. Qed.

Lemma emit_eq ev w : emit ev w = (Done tt, logged w [ev]).
Proof. reflexivity. Qed.

Section Calls.

Context (env : Env).

Lemma Blog_findOne_answers id w :
  findOne_fault env id = None ->
  Blog_findOne env id w = (Done (blogs w !! id), logged w [BlogFindOne id]).
Proof. intros H. unfold Blog_findOne, bind. rewrite emit_eq, H. reflexivity. Qed.

Lemma Blog_findOne_throws id w error :
  findOne_fault env id = Some error ->
  Blog_findOne env id w = (Thrown error, logged w [BlogFindOne id]).
Proof. intros H. unfold Blog_findOne, bind. rewrite emit_eq, H. reflexivity. Qed.

Lemma uploader_upload_rejects photo w error :
  upload_reply env photo = inl error ->
  uploader_upload env photo w = (Thrown error, logged w [CloudinaryUpload photo]).
Proof. intros H. unfold uploader_upload, bind. rewrite emit_eq, H. reflexivity. Qed.

Lemma uploader_upload_resolves photo w response :
  upload_reply env photo = inr response ->
  uploader_upload env photo w =
    (Done response,
     mkWorld (blogs w) (comments w) ({[public_id response]} ∪ assets w)
             (trace w ++ [CloudinaryUpload photo])).
Proof. intros H. unfold uploader_upload, bind. rewrite emit_eq, H. reflexivity. Qed.

(** Without a callback a failed removal only leaves the call in the trace. *)
Lemma uploader_destroy_rejects publicId w error :
  destroy_fault env publicId = Some error ->
  uploader_destroy env publicId None w =
    (Thrown error, logged w [CloudinaryDestroy publicId]).
Proof. intros H. unfold uploader_destroy, bind. rewrite emit_eq, H. reflexivity. Qed.

(** A removal never touches the documents, and adds its call to the trace. *)
Lemma uploader_destroy_keeps_documents publicId w :
  let w' := (uploader_destroy env publicId None w).2 in
  blogs w' = blogs w /\ comments w' = comments w
  /\ trace w' = trace w ++ [CloudinaryDestroy publicId].
Proof.
  unfold uploader_destroy, bind. rewrite emit_eq.
  destruct (destroy_fault env publicId); simpl; [easy|].
  destruct publicId; simpl; easy.
Qed.

Lemma Blog_save_rejects newBlog w error :
  save_reply env newBlog = inl error ->
  Blog_save env newBlog w = (Thrown error, logged w [BlogSave newBlog]).
Proof. intros H. unfold Blog_save, bind. rewrite emit_eq, H. reflexivity. Qed.

Lemma Blog_save_duplicate newBlog w id :
  save_reply env newBlog = inr id ->
  is_Some (blogs w !! id) ->
  Blog_save env newBlog w =
    (Thrown (StoreError "E11000 duplicate key error"), logged w [BlogSave newBlog]).
Proof.
  intros H [b Hb]. unfold Blog_save, bind, get_blogs. rewrite emit_eq, H. simpl.
  rewrite Hb. reflexivity.
Qed.

(** These are the only ways an insert fails. *)
Lemma Blog_save_throws newBlog w error :
  (Blog_save env newBlog w).1 = Thrown error ->
  save_reply env newBlog = inl error
  \/ exists id, save_reply env newBlog = inr id /\ is_Some (blogs w !! id)
                /\ error = StoreError "E11000 duplicate key error".
Proof.
  unfold Blog_save, bind. rewrite emit_eq.
  destruct (save_reply env newBlog) as [e|id]; simpl.
  - intros [= ->]. by left.
  - destruct (blogs w !! id) eqn:E; simpl; [|discriminate].
    intros [= <-]. right. exists id. rewrite E. eauto.
Qed.

End Calls.

(** ** Validation *)

(** A body that passes a schema has every required key, with a value that is
    not empty and matches the pattern of the key. *)
Lemma check_keys_required schema body key r :
  check_keys schema body = None ->
  (key, r) ∈ schema ->
  required r = true ->
  exists v, body !! key = Some v /\ v <> EmptyString
            /\ forall p, regex r = Some p -> p v = true.
Proof.
  induction schema as [|[k r'] rest IH]; intros Hcheck Hin Hreq.
  - by apply elem_of_nil in Hin.
  - simpl in Hcheck.
    destruct (check_value k r' (body !! k)) eqn:Hv; [discriminate|].
    apply elem_of_cons in Hin as [[= <- <-]|Hin]; [|by apply IH].
    unfold check_value in Hv. rewrite Hreq in Hv.
    destruct (body !! key) as [[|c v]|]; try discriminate.
    eexists. split; [reflexivity|]. split; [easy|].
    intros p Hp. rewrite Hp in Hv. by destruct (p (String c v)).
Qed.

(** A key that may be left out is not empty when it is there. *)
Lemma check_keys_present schema body key r v :
  check_keys schema body = None ->
  (key, r) ∈ schema ->
  body !! key = Some v ->
  v <> EmptyString.
Proof.
  induction schema as [|[k r'] rest IH]; intros Hcheck Hin Hv.
  - by apply elem_of_nil in Hin.
  - simpl in Hcheck.
    destruct (check_value k r' (body !! k)) eqn:Hc; [discriminate|].
    apply elem_of_cons in Hin as [[= <- <-]|Hin]; [|by apply IH].
    rewrite Hv in Hc. destruct v; [discriminate|easy].
Qed.

Lemma validate_check_keys schema body :
  validate schema body = None -> check_keys schema body = None.
Proof. unfold validate. by destruct (check_keys schema body). Qed.

(** The id that reaches [getById] and [delete] is 24 hexadecimal digits. *)
Lemma validated_id_wellformed params :
  validate deleteBlogSchema params = None ->
  params !! "id" = Some (params !!! "id")
  /\ mongodbIdPattern (params !!! "id") = true.
Proof.
  intros H%validate_check_keys.
  destruct (check_keys_required _ _ "id" (mkRule true (Some mongodbIdPattern)) H)
    as (v & Hv & _ & Hp); [apply list_elem_of_here|reflexivity|].
  rewrite (lookup_total_correct _ _ _ Hv). split; [exact Hv|]. by apply Hp.
Qed.

(** The photo of an update that passed validation is a truthy string. *)
Lemma validated_update_photo body photo :
  validate updateBlogSchema body = None ->
  body !! "photo" = Some photo ->
  exists c rest, photo = String c rest.
Proof.
  intros H%validate_check_keys Hphoto.
  assert (photo <> EmptyString) as Hne.
  { eapply (check_keys_present _ _ "photo" (mkRule false None)); [exact H| |exact Hphoto].
    unfold updateBlogSchema. set_solver. }
  destruct photo; [easy|eauto].
Qed.

(** ** Create *)

Section Create.

Context (env : Env) {SummaryDTO : Type} (DetailsDTO : Type).
Context (BlogDTO : string -> Blog -> Error + SummaryDTO).

(** C5: when the upload of a create call fails, the handler passes the upload
    error to [next]; the upload is the only call it has made, no document is
    inserted, and both stores are as they were. *)
Theorem create_upload_failure body w error :
  validate createBlogSchema body = None ->
  upload_reply env (body !!! "photo") = inl error ->
  create env DetailsDTO BlogDTO body w =
    (Done (Next error), logged w [CloudinaryUpload (body !!! "photo")]).
Proof.
  intros Hvalid Hupload. unfold create. rewrite Hvalid.
  unfold bind, attempt. rewrite (uploader_upload_rejects _ _ _ _ Hupload).
  reflexivity.
Qed.

(** C6: when the upload of a create call succeeds and the insert fails, the
    handler passes the insert error to [next]; after the upload it has only
    called [save], so no removal is asked of the asset store, the collection
    is unchanged and the uploaded asset stays in the asset store. *)
Theorem create_insert_failure body w response error :
  validate createBlogSchema body = None ->
  upload_reply env (body !!! "photo") = inr response ->
  save_reply env (mkBlog (body !!! "title") (body !!! "author") (body !!! "content")
                         (url response)) = inl error
  \/ (exists id,
        save_reply env (mkBlog (body !!! "title") (body !!! "author")
                               (body !!! "content") (url response)) = inr id
        /\ is_Some (blogs w !! id)
        /\ error = StoreError "E11000 duplicate key error") ->
  exists w',
    create env DetailsDTO BlogDTO body w = (Done (Next error), w')
    /\ trace w' = trace w ++
         [CloudinaryUpload (body !!! "photo");
          BlogSave (mkBlog (body !!! "title") (body !!! "author") (body !!! "content")
                           (url response))]
    /\ (forall publicId, CloudinaryDestroy publicId ∈ trace w' ->
                         CloudinaryDestroy publicId ∈ trace w)
    /\ blogs w' = blogs w
    /\ comments w' = comments w
    /\ assets w' = {[public_id response]} ∪ assets w.
Proof.
  intros Hvalid Hupload Hsave. unfold create. rewrite Hvalid.
  unfold bind at 1. unfold attempt at 1.
  rewrite (uploader_upload_resolves _ _ _ _ Hupload).
  unfold bind at 1. unfold attempt at 1. unfold bind at 1.
  set (newBlog := mkBlog _ _ _ _) in *.
  set (w1 := mkWorld _ _ _ _).
  assert (exists e, Blog_save env newBlog w1 = (Thrown e, logged w1 [BlogSave newBlog])
                    /\ e = error) as (e & -> & ->).
  { destruct Hsave as [Hsave|(id & Hsave & Hid & ->)].
    - eexists. split; [by apply Blog_save_rejects|reflexivity].
    - eexists. split; [by eapply Blog_save_duplicate|reflexivity]. }
  eexists. split; [reflexivity|]. simpl.
  split; [by rewrite <- app_assoc|].
  split; [|easy].
  intros publicId. rewrite !elem_of_app, !list_elem_of_singleton.
  intros [[H|H]|H]; [exact H|discriminate|discriminate].
Qed.

End Create.

(** ** Looking up an id that is not stored *)

Section Absent.

Context (env : Env) {User : Type} (SummaryDTO : Type) {DetailsDTO : Type}.
Context (users : gmap string User).
Context (BlogDetailsDTO : option (string * Blog * option User) -> Error + DetailsDTO).

(** [getById] answers with status 200 or not at all: no path of the handler
    sets another status. *)
Lemma getById_status params w code body :
  (getById env SummaryDTO users BlogDetailsDTO params w).1 = Done (Status code body) ->
  code = 200.
Proof.
  unfold getById. destruct (validate getByIdSchema params); [discriminate|].
  unfold bind, attempt, new_BlogDetailsDTO.
  destruct (Blog_findOne_populate env users _ w) as [[blog|e] w1]; [|discriminate].
  destruct (BlogDetailsDTO blog); simpl; [discriminate|].
  by intros [= <- _].
Qed.

(** C9: for a well-formed id that matches no document, [getById] builds the
    detail projection from the [null] that the lookup returned: it answers
    with status 200 and that projection, or, when the constructor throws,
    ends with the constructor's error unhandled. It never answers 404. *)
Theorem getById_absent params w :
  validate getByIdSchema params = None ->
  findOne_fault env (params !!! "id") = None ->
  blogs w !! (params !!! "id") = None ->
  getById env SummaryDTO users BlogDetailsDTO params w =
    (match BlogDetailsDTO None with
     | inr blogDto => Done (Status 200 (BlogDetails blogDto))
     | inl error => Thrown error
     end,
     logged w [BlogFindOne (params !!! "id")])
  /\ forall body,
       (getById env SummaryDTO users BlogDetailsDTO params w).1 <> Done (Status 404 body).
Proof.
  intros Hvalid Hfind Habsent. split.
  - unfold getById. rewrite Hvalid.
    unfold bind, attempt, Blog_findOne_populate, bind.
    rewrite (Blog_findOne_answers _ _ _ Hfind), Habsent.
    unfold ret, new_BlogDetailsDTO. by destruct (BlogDetailsDTO None).
  - intros body H. by apply getById_status in H.
Qed.

End Absent.

(** ** Update *)

Section Update.

Context (env : Env) (SummaryDTO DetailsDTO : Type).

(** Step 2 of [update] always completes: the removal of the old asset is
    asked for once, a failure is printed and goes no further, and the
    documents are not touched. *)
Lemma update_remove_old_completes blog w :
  photoPath blog <> EmptyString ->
  exists w1,
    update_remove_old env blog w = (Done tt, w1)
    /\ blogs w1 = blogs w
    /\ comments w1 = comments w
    /\ trace w1 = trace w ++
         CloudinaryDestroy (first_piece_of_last_segment (photoPath blog)) ::
         match destroy_fault env (first_piece_of_last_segment (photoPath blog)) with
         | Some error => [ConsoleError "Cloudinary old image deletion error:" error]
         | None => []
         end.
Proof.
  intros Hpath. unfold update_remove_old.
  destruct (photoPath blog) as [|c rest] eqn:E; [easy|].
  set (publicId := first_piece_of_last_segment (String c rest)).
  unfold bind at 1. rewrite update_publicId_eq. fold publicId.
  unfold bind, attempt, uploader_destroy, bind. rewrite emit_eq.
  destruct (destroy_fault env publicId) as [error|]; simpl.
  - eexists. split; [reflexivity|]. simpl. by rewrite <- app_assoc.
  - destruct publicId; simpl; (eexists; split; [reflexivity|]); easy.
Qed.

(** C1: an update that brings a new photo for a stored document with a photo
    path first asks Cloudinary to remove the old asset; a failure of that
    removal is printed and the handler goes on to upload the new photo. When
    the upload fails the handler passes the upload error to [next] and makes
    no further call: [updateOne] is not reached and the collection, with the
    old photo path of the document, is as it was. *)
Theorem update_new_photo body w blog photo :
  validate updateBlogSchema body = None ->
  body !! "photo" = Some photo ->
  findOne_fault env (body !!! "blogId") = None ->
  blogs w !! (body !!! "blogId") = Some blog ->
  photoPath blog <> EmptyString ->
  exists r w' later,
    update env SummaryDTO DetailsDTO body w = (r, w')
    /\ trace w' = trace w ++
         [BlogFindOne (body !!! "blogId");
          CloudinaryDestroy (first_piece_of_last_segment (photoPath blog))]
         ++ match destroy_fault env (first_piece_of_last_segment (photoPath blog)) with
            | Some error => [ConsoleError "Cloudinary old image deletion error:" error]
            | None => []
            end
         ++ [CloudinaryUpload photo] ++ later
    /\ forall uploadError,
         upload_reply env photo = inl uploadError ->
         r = Done (Next uploadError)
         /\ later = []
         /\ blogs w' = blogs w
         /\ photoPath <$> blogs w' !! (body !!! "blogId") = Some (photoPath blog).
Proof.
  intros Hvalid Hphoto Hfind Hblog Hpath.
  destruct (validated_update_photo _ _ Hvalid Hphoto) as (c & rest & ->).
  unfold update. rewrite Hvalid, Hphoto.
  unfold bind at 1. unfold attempt at 1.
  rewrite (Blog_findOne_answers _ _ _ Hfind). simpl blogs. rewrite Hblog.
  unfold bind at 1. unfold bind at 1.
  destruct (update_remove_old_completes blog (logged w [BlogFindOne (body !!! "blogId")]) Hpath)
    as (w1 & -> & Hblogs1 & _ & Htrace1).
  simpl in Hblogs1, Htrace1.
  set (removal := match destroy_fault env _ with Some _ => _ | None => _ end) in *.
  unfold bind at 1. unfold attempt at 1. unfold uploader_upload, bind at 1.
  rewrite emit_eq.
  destruct (upload_reply env (String c rest)) as [uploadError|response] eqn:Hup.
  - eexists _, _, []. split; [reflexivity|]. simpl. split.
    + rewrite Htrace1, <- !app_assoc. reflexivity.
    + intros e [= <-]. rewrite Hblogs1, Hblog. easy.
  - unfold bind, attempt, set_assets, ret. simpl.
    unfold Blog_updateOne, bind. rewrite emit_eq.
    destruct (updateOne_fault env (body !!! "blogId")); simpl;
      (eexists _, _, [_]; split; [reflexivity|]; simpl; split;
       [rewrite Htrace1, <- !app_assoc; reflexivity|discriminate]).
Qed.

(** The guard of line 169: a document without a photo path has no old asset,
    and the handler goes to the upload at once. *)
Lemma update_photo_without_old_path body w blog photo :
  validate updateBlogSchema body = None ->
  body !! "photo" = Some photo ->
  findOne_fault env (body !!! "blogId") = None ->
  blogs w !! (body !!! "blogId") = Some blog ->
  photoPath blog = EmptyString ->
  exists later,
    trace (update env SummaryDTO DetailsDTO body w).2 =
      trace w ++ [BlogFindOne (body !!! "blogId"); CloudinaryUpload photo] ++ later
    /\ forall publicId, CloudinaryDestroy publicId ∉ later.
Proof.
  intros Hvalid Hphoto Hfind Hblog Hpath.
  destruct (validated_update_photo _ _ Hvalid Hphoto) as (c & rest & ->).
  unfold update. rewrite Hvalid, Hphoto.
  unfold bind at 1. unfold attempt at 1.
  rewrite (Blog_findOne_answers _ _ _ Hfind). simpl blogs. rewrite Hblog.
  unfold update_remove_old. rewrite Hpath.
  unfold bind at 1. unfold bind at 1. unfold ret at 1.
  unfold bind at 1. unfold attempt at 1. unfold uploader_upload, bind at 1.
  rewrite emit_eq.
  destruct (upload_reply env (String c rest)) as [uploadError|response].
  - exists []. simpl. split; [by rewrite <- app_assoc|]. intros p. apply not_elem_of_nil.
  - unfold bind, attempt, set_assets, ret. simpl.
    unfold Blog_updateOne, bind. rewrite emit_eq.
    destruct (updateOne_fault env (body !!! "blogId")); simpl;
      (eexists [_]; split; [by rewrite <- !app_assoc|]);
      intros p Hp%list_elem_of_singleton; discriminate.
Qed.

(** C2, as the handler has it: an update without a photo leaves the photo
    path and the author of the stored document as they are, whatever its
    outcome, and calls neither Cloudinary operation; when [updateOne]
    succeeds the handler answers 200 and the document has the title and the
    content of the request. The author of the request is checked by the
    schema and not written. *)
Theorem update_without_photo body w blog :
  validate updateBlogSchema body = None ->
  body !! "photo" = None ->
  findOne_fault env (body !!! "blogId") = None ->
  blogs w !! (body !!! "blogId") = Some blog ->
  exists r w',
    update env SummaryDTO DetailsDTO body w = (r, w')
    /\ photoPath <$> blogs w' !! (body !!! "blogId") = Some (photoPath blog)
    /\ author <$> blogs w' !! (body !!! "blogId") = Some (author blog)
    /\ assets w' = assets w
    /\ trace w' = trace w ++
         [BlogFindOne (body !!! "blogId");
          BlogUpdateOne (body !!! "blogId") (body !!! "title") (body !!! "content")
                        (photoPath blog)]
    /\ (updateOne_fault env (body !!! "blogId") = None ->
        r = Done (Status 200 (Message "blog updated!"))
        /\ blogs w' = <[ body !!! "blogId" :=
                          mkBlog (body !!! "title") (author blog) (body !!! "content")
                                 (photoPath blog) ]> (blogs w)).
Proof.
  intros Hvalid Hphoto Hfind Hblog.
  unfold update. rewrite Hvalid, Hphoto.
  unfold bind at 1. unfold attempt at 1.
  rewrite (Blog_findOne_answers _ _ _ Hfind). simpl blogs. rewrite Hblog.
  unfold bind, attempt, ret, Blog_updateOne, bind. rewrite emit_eq.
  destruct (updateOne_fault env (body !!! "blogId")) eqn:Hfault; simpl.
  - eexists _, _. split; [reflexivity|]. simpl. rewrite Hblog, <- app_assoc.
    repeat split; discriminate.
  - eexists _, _. split; [reflexivity|]. simpl.
    rewrite lookup_alter_eq, Hblog, <- app_assoc. simpl.
    repeat split.
    apply map_eq. intros k. destruct (decide (k = body !!! "blogId")) as [->|Hne].
    + by rewrite lookup_alter_eq, lookup_insert_eq, Hblog.
    + by rewrite lookup_alter_ne, lookup_insert_ne.
Qed.

End Update.

(** ** Delete *)

Section Delete.

Context (env : Env) (SummaryDTO DetailsDTO : Type).

(** The removal that [delete] asks for, with its callback: a failure is
    printed by the callback and then thrown to the caller; a success takes
    the asset out of the store and prints the result. *)
Lemma delete_destroy_rejects publicId w error :
  destroy_fault env publicId = Some error ->
  uploader_destroy env publicId (Some (delete_callback publicId)) w =
    (Thrown error,
     logged w [CloudinaryDestroy publicId;
               ConsoleError "Cloudinary deletion error:" error;
               ConsoleLog ("Cloudinary result for " +:+ Js.to_text publicId +:+ ":") None]).
Proof.
  intros H. unfold uploader_destroy, bind. rewrite emit_eq, H.
  unfold delete_callback, console_error, console_log, bind. rewrite !emit_eq.
  unfold throw. by rewrite !logged_logged.
Qed.

Lemma delete_destroy_resolves publicId w :
  destroy_fault env (Some publicId) = None ->
  exists result,
    uploader_destroy env (Some publicId) (Some (delete_callback (Some publicId))) w =
      (Done result,
       mkWorld (blogs w) (comments w) (assets w ∖ {[publicId]})
               (trace w ++ [CloudinaryDestroy (Some publicId);
                            ConsoleLog ("Cloudinary result for " +:+ publicId +:+ ":")
                                       (Some result)])).
Proof.
  intros H. unfold uploader_destroy, bind. rewrite emit_eq, H.
  eexists. simpl. by rewrite <- app_assoc.
Qed.

(** A failed removal ends [delete]: the error goes to [next], and neither
    [deleteOne] nor [deleteMany] is called. *)
Lemma delete_destroy_failure params w blog error :
  validate deleteBlogSchema params = None ->
  findOne_fault env (params !!! "id") = None ->
  blogs w !! (params !!! "id") = Some blog ->
  destroy_fault env (first_piece_of_last_segment (photoPath blog)) = Some error ->
  delete env SummaryDTO DetailsDTO params w =
    (Done (Next error),
     logged w [BlogFindOne (params !!! "id");
               CloudinaryDestroy (first_piece_of_last_segment (photoPath blog));
               ConsoleError "Cloudinary deletion error:" error;
               ConsoleLog ("Cloudinary result for "
                           +:+ Js.to_text (first_piece_of_last_segment (photoPath blog))
                           +:+ ":") None]).
Proof.
  intros Hvalid Hfind Hblog Hdestroy. unfold delete. rewrite Hvalid.
  unfold bind at 1. unfold attempt at 1. unfold bind at 1.
  rewrite (Blog_findOne_answers _ _ _ Hfind). simpl blogs. rewrite Hblog.
  unfold bind at 1. rewrite delete_publicId_eq.
  unfold bind at 1. rewrite (delete_destroy_rejects _ _ _ Hdestroy).
  unfold ret. by rewrite logged_logged.
Qed.

(** When every call is answered, [delete] answers 200, and the document and
    its comments are gone. *)
Lemma delete_succeeds params w blog :
  validate deleteBlogSchema params = None ->
  findOne_fault env (params !!! "id") = None ->
  blogs w !! (params !!! "id") = Some blog ->
  destroy_fault env (first_piece_of_last_segment (photoPath blog)) = None ->
  deleteOne_fault env (params !!! "id") = None ->
  deleteMany_fault env (params !!! "id") = None ->
  exists w',
    delete env SummaryDTO DetailsDTO params w =
      (Done (Status 200 (Message "Blog deleted successfully!")), w')
    /\ blogs w' = base.delete (params !!! "id") (blogs w)
    /\ comments w' = filter (fun c => comment_blog c ≠ params !!! "id") (comments w).
Proof.
  intros Hvalid Hfind Hblog Hdestroy Hone Hmany. unfold delete. rewrite Hvalid.
  unfold bind at 1. unfold attempt at 1. unfold bind at 1.
  rewrite (Blog_findOne_answers _ _ _ Hfind). simpl blogs. rewrite Hblog.
  unfold bind at 1. rewrite delete_publicId_eq.
  destruct (first_piece_defined (photoPath blog)) as (publicId & HpublicId & _).
  rewrite HpublicId in *.
  destruct (delete_destroy_resolves publicId (logged w [BlogFindOne (params !!! "id")])
              Hdestroy) as (result & Hresult).
  unfold bind at 1. rewrite Hresult.
  unfold bind, Blog_deleteOne, Comment_deleteMany, bind. rewrite !emit_eq, Hone. simpl.
  rewrite Hmany. simpl. eexists. split; [reflexivity|]. easy.
Qed.

(** What a 200 from [delete] tells about the call. *)
Lemma delete_success_inv params w code body w' :
  delete env SummaryDTO DetailsDTO params w = (Done (Status code body), w') ->
  code = 200 ->
  exists blog,
    validate deleteBlogSchema params = None
    /\ blogs w !! (params !!! "id") = Some blog
    /\ blogs w' = base.delete (params !!! "id") (blogs w)
    /\ comments w' = filter (fun c => comment_blog c ≠ params !!! "id") (comments w).
Proof.
  unfold delete. destruct (validate deleteBlogSchema params) eqn:Hvalid;
    [discriminate|].
  unfold bind at 1. unfold attempt at 1. unfold bind at 1.
  destruct (findOne_fault env (params !!! "id")) eqn:Hfind.
  { rewrite (Blog_findOne_throws _ _ _ _ Hfind). discriminate. }
  rewrite (Blog_findOne_answers _ _ _ Hfind).
  destruct (blogs w !! (params !!! "id")) as [blog|] eqn:Hblog;
    [|simpl; intros [= <- _ _] [=]].
  unfold bind at 1. rewrite delete_publicId_eq.
  destruct (first_piece_defined (photoPath blog)) as (publicId & -> & _).
  unfold bind at 1.
  destruct (destroy_fault env (Some publicId)) as [error|] eqn:Hdestroy.
  { rewrite (delete_destroy_rejects _ _ _ Hdestroy). discriminate. }
  destruct (delete_destroy_resolves publicId (logged w [BlogFindOne (params !!! "id")])
              Hdestroy) as (result & ->).
  unfold bind, Blog_deleteOne, Comment_deleteMany, bind. rewrite !emit_eq.
  destruct (deleteOne_fault env (params !!! "id")); simpl; [discriminate|].
  destruct (deleteMany_fault env (params !!! "id")); simpl; [discriminate|].
  intros [= _ _ <-] _. exists blog. easy.
Qed.

(** C7: after a delete call that completed successfully, which it does only
    for a stored id, the document is no longer in the collection, a lookup
    of the id finds nothing, and no comment refers to the id. *)
Theorem delete_removes_blog_and_comments params w body w' :
  delete env SummaryDTO DetailsDTO params w = (Done (Status 200 body), w') ->
  is_Some (blogs w !! (params !!! "id"))
  /\ blogs w' !! (params !!! "id") = None
  /\ (forall env', findOne_fault env' (params !!! "id") = None ->
                   (Blog_findOne env' (params !!! "id") w').1 = Done None)
  /\ (forall c, c ∈ comments w' -> comment_blog c ≠ params !!! "id").
Proof.
  intros H. destruct (delete_success_inv _ _ _ _ _ H eq_refl)
    as (blog & _ & Hblog & Hblogs & Hcomments).
  assert (blogs w' !! (params !!! "id") = None) as Hgone.
  { rewrite Hblogs. apply lookup_delete_eq. }
  split; [by rewrite Hblog|]. split; [exact Hgone|]. split.
  - intros env' Hfind. rewrite (Blog_findOne_answers _ _ _ Hfind). simpl.
    by rewrite Hgone.
  - intros c. rewrite Hcomments, list_elem_of_filter. by intros [Hc _].
Qed.

End Delete.

(** C8: an update or a delete whose well-formed id matches no stored document
    answers 404 after the lookup, which is the only call it makes: the
    collections and the asset store are as they were. A second delete of the
    same id answers 404 in the same way. *)
Theorem absent_id_not_found (env env' : Env) (SummaryDTO DetailsDTO : Type)
    (body params : gmap string string) (w : World) :
  validate updateBlogSchema body = None ->
  findOne_fault env (body !!! "blogId") = None ->
  blogs w !! (body !!! "blogId") = None ->
  validate deleteBlogSchema params = None ->
  findOne_fault env (params !!! "id") = None ->
  findOne_fault env' (params !!! "id") = None ->
  blogs w !! (params !!! "id") = None ->
  update env SummaryDTO DetailsDTO body w =
    (Done (Status 404 (Message "Blog not found")),
     logged w [BlogFindOne (body !!! "blogId")])
  /\ delete env SummaryDTO DetailsDTO params w =
       (Done (Status 404 (Message "Blog not found")),
        logged w [BlogFindOne (params !!! "id")])
  /\ delete env' SummaryDTO DetailsDTO params
            (delete env SummaryDTO DetailsDTO params w).2 =
       (Done (Status 404 (Message "Blog not found")),
        logged w [BlogFindOne (params !!! "id"); BlogFindOne (params !!! "id")]).
Proof.
  intros Hvalid Hfind Habsent Hvalid' Hfind1 Hfind2 Habsent'.
  assert (forall e w0, findOne_fault e (params !!! "id") = None ->
            blogs w0 !! (params !!! "id") = None ->
            delete e SummaryDTO DetailsDTO params w0 =
              (Done (Status 404 (Message "Blog not found")),
               logged w0 [BlogFindOne (params !!! "id")])) as Hdelete.
  { intros e w0 He Hw0. unfold delete. rewrite Hvalid'.
    unfold bind, attempt. rewrite (Blog_findOne_answers _ _ _ He). simpl.
    by rewrite Hw0. }
  split; [|split].
  - unfold update. rewrite Hvalid.
    unfold bind, attempt. rewrite (Blog_findOne_answers _ _ _ Hfind). simpl.
    by rewrite Habsent.
  - by apply Hdelete.
  - rewrite (Hdelete env w Hfind1 Habsent'). simpl.
    rewrite (Hdelete env' (logged w [BlogFindOne (params !!! "id")]) Hfind2 Habsent').
    by rewrite logged_logged.
Qed.

(** ** The two fragments and the rule of the specification *)

Lemma before_last_None c s : Js.before_last c s = None <-> Js.occurs c s = false.
Proof.
  induction s as [|a rest IH]; simpl; [easy|].
  destruct (Js.before_last c rest) as [p|].
  - split; [discriminate|]. intros H%orb_false_iff.
    destruct H as [_ H]. apply IH in H. discriminate.
  - destruct IH as [IH _]. rewrite (IH eq_refl), orb_false_r.
    destruct (Ascii.eqb a c); easy.
Qed.

(** When the text before the last separator has no separator, it is the
    first piece of the split. *)
Lemma first_piece_is_stem c s stem :
  Js.before_last c s = Some stem ->
  Js.occurs c stem = false ->
  Js.split c s !! 0%nat = Some stem.
Proof.
  revert stem. induction s as [|a rest IH]; simpl; [discriminate|].
  intros stem. destruct (Js.before_last c rest) as [p|] eqn:E.
  - intros [= <-]. simpl. intros H%orb_false_iff. destruct H as [Ha Hp].
    rewrite Ha. specialize (IH p eq_refl Hp).
    destruct (Js.split c rest) as [|piece pieces]; [discriminate|].
    simpl in IH. injection IH as ->. reflexivity.
  - destruct (Ascii.eqb a c); [|discriminate]. intros [= <-] _. reflexivity.
Qed.

(** The fragments follow the rule of the specification on every URL whose
    last segment has at most one dot. *)
Lemma first_piece_as_specified photoUrl segment :
  last (Js.split "/" photoUrl) = Some segment ->
  match Js.before_last "." segment with
  | Some stem => Js.occurs "." stem = false
  | None => True
  end ->
  first_piece_of_last_segment photoUrl = decode_as_specified photoUrl.
Proof.
  intros Hlast. unfold first_piece_of_last_segment, decode_as_specified.
  rewrite Hlast. destruct (Js.before_last "." segment) as [stem|] eqn:E.
  - intros Hstem. by apply first_piece_is_stem.
  - intros _. apply before_last_None in E. by rewrite split_without_sep.
Qed.

(** They depart from it on every other URL: the stem has a dot, and the
    first piece has none. *)
Lemma first_piece_not_as_specified photoUrl segment stem :
  last (Js.split "/" photoUrl) = Some segment ->
  Js.before_last "." segment = Some stem ->
  Js.occurs "." stem = true ->
  first_piece_of_last_segment photoUrl <> decode_as_specified photoUrl.
Proof.
  intros Hlast Hstem Hocc Heq.
  destruct (first_piece_defined photoUrl) as (publicId & HpublicId & Hnone).
  unfold decode_as_specified in Heq. rewrite Hlast, Hstem, HpublicId in Heq.
  injection Heq as ->. congruence.
Qed.

(** The first piece of a split is the text of the string before its first
    separator: the whole string when there is no separator. *)
Lemma split_first_piece_prefix c s :
  exists piece,
    Js.split c s !! 0%nat = Some piece
    /\ Js.occurs c piece = false
    /\ (s = piece \/ exists rest, s = piece +:+ String c rest).
Proof.
  induction s as [|a s IH]; simpl.
  - exists EmptyString. by eauto.
  - destruct (Ascii.eqb a c) eqn:E.
    + apply Ascii.eqb_eq in E as ->. exists EmptyString.
      split; [reflexivity|]. split; [reflexivity|]. right. by exists s.
    + destruct IH as (piece & Hpiece & Hocc & Hs).
      destruct (Js.split c s) as [|p pieces]; [discriminate|].
      injection Hpiece as ->. exists (String a piece).
      split; [reflexivity|]. split; [by simpl; rewrite E|].
      destruct Hs as [->|[rest ->]]; [by left|right; by exists rest].
Qed.

(** C3, as the claim has it, fails on a URL whose last segment is
    [abc.v2.jpg]: both fragments derive [abc], where the segment without its
    file extension is [abc.v2]. *)
Lemma publicId_of_dotted_segment_counterexample :
  last (Js.split "/" Sample.dotted_url) = Some "abc.v2.jpg"
  /\ (delete_publicId Sample.dotted_url Sample.dotted_world).1 = Done (Some "abc")
  /\ (update_publicId Sample.dotted_url Sample.dotted_world).1 = Done (Some "abc")
  /\ decode_as_specified Sample.dotted_url = Some "abc.v2"
  /\ (delete_publicId Sample.dotted_url Sample.dotted_world).1
     <> Done (decode_as_specified Sample.dotted_url).
Proof.
  rewrite delete_publicId_eq, update_publicId_eq.
  repeat split; try (vm_compute; reflexivity). vm_compute. discriminate.
Qed.

(** C3, as the fragments have it: on every URL both fragments end with the
    text of the last path segment before its first dot, the whole segment
    when it has no dot. That is the segment without its file extension
    exactly when the segment has at most one dot, as the segments of the
    URLs that Cloudinary returns for uploads without a custom identifier
    have. *)
Theorem publicId_up_to_first_dot photoUrl w :
  exists segment publicId,
    last (Js.split "/" photoUrl) = Some segment
    /\ delete_publicId photoUrl w = (Done (Some publicId), w)
    /\ update_publicId photoUrl w = (Done (Some publicId), w)
    /\ Js.occurs "." publicId = false
    /\ (segment = publicId \/ exists rest, segment = publicId +:+ String "." rest)
    /\ match Js.before_last "." segment with
       | Some stem =>
           Js.occurs "." stem = false <-> decode_as_specified photoUrl = Some publicId
       | None => decode_as_specified photoUrl = Some publicId
       end.
Proof.
  destruct (last_split_is_Some "/" photoUrl) as [segment Hlast].
  destruct (split_first_piece_prefix "." segment) as (publicId & Hpiece & Hocc & Hprefix).
  assert (first_piece_of_last_segment photoUrl = Some publicId) as Hfirst.
  { unfold first_piece_of_last_segment. by rewrite Hlast. }
  exists segment, publicId.
  rewrite delete_publicId_eq, ?update_publicId_eq, Hfirst.
  split; [exact Hlast|]. split; [reflexivity|]. split; [reflexivity|].
  split; [exact Hocc|]. split; [exact Hprefix|].
  destruct (Js.before_last "." segment) as [stem|] eqn:Hstem.
  - split.
    + intros Hone. rewrite <- Hfirst. symmetry.
      apply (first_piece_as_specified _ _ Hlast). by rewrite Hstem.
    + intros Hspec. destruct (Js.occurs "." stem) eqn:Hmany; [|reflexivity].
      exfalso. apply (first_piece_not_as_specified _ _ _ Hlast Hstem Hmany).
      by rewrite Hfirst, Hspec.
  - rewrite <- Hfirst. symmetry. apply (first_piece_as_specified _ _ Hlast).
    by rewrite Hstem.
Qed.

(** C10: on every URL the fragment of [update] and the fragment of [delete]
    end in the same way, with the same public id, which is a string. *)
Theorem publicId_fragments_agree photoUrl w :
  update_publicId photoUrl w = delete_publicId photoUrl w
  /\ exists publicId, delete_publicId photoUrl w = (Done (Some publicId), w).
Proof.
  rewrite update_publicId_eq, delete_publicId_eq. split; [reflexivity|].
  destruct (first_piece_defined photoUrl) as (publicId & -> & _). eauto.
Qed.

(** ** The handlers on the sample world *)

(** C4: with a stored post and a Cloudinary that refuses the removal, the
    callback prints the error, the awaited call throws it, and [delete]
    passes it to [next] from the [catch] of line 276: [deleteOne] and
    [deleteMany] are not called and the post and its comments remain. *)
Theorem delete_stopped_by_destroy_failure :
  delete Sample.destroy_fails Sample.Summary Sample.Details
         (Sample.id_params Sample.post_id) Sample.world =
    (Done (Next Sample.network_down),
     logged Sample.world
       [BlogFindOne Sample.post_id;
        CloudinaryDestroy (Some "sample_old");
        ConsoleError "Cloudinary deletion error:" Sample.network_down;
        ConsoleLog "Cloudinary result for sample_old:" None])
  /\ blogs (delete Sample.destroy_fails Sample.Summary Sample.Details
                   (Sample.id_params Sample.post_id) Sample.world).2
       !! Sample.post_id = Some Sample.post
  /\ comments (delete Sample.destroy_fails Sample.Summary Sample.Details
                      (Sample.id_params Sample.post_id) Sample.world).2
     = comments Sample.world.
Proof.
  assert (delete Sample.destroy_fails Sample.Summary Sample.Details
                 (Sample.id_params Sample.post_id) Sample.world =
          (Done (Next Sample.network_down),
           logged Sample.world
             [BlogFindOne Sample.post_id;
              CloudinaryDestroy (Some "sample_old");
              ConsoleError "Cloudinary deletion error:" Sample.network_down;
              ConsoleLog "Cloudinary result for sample_old:" None])) as ->.
  { apply (delete_destroy_failure Sample.destroy_fails Sample.Summary Sample.Details
             (Sample.id_params Sample.post_id) Sample.world Sample.post);
      vm_compute; reflexivity. }
  repeat split.
Qed.

(** C2, as the claim has it, fails on the sample post: the request names
    [bob] as author, the handler answers 200, and the stored author is still
    [alice]. *)
Lemma update_keeps_author_counterexample :
  validate updateBlogSchema Sample.update_body = None
  /\ Sample.update_body !! "photo" = None
  /\ Sample.update_body !! "author" = Some Sample.bob
  /\ blogs Sample.world !! (Sample.update_body !!! "blogId") = Some Sample.post
  /\ (update Sample.healthy Sample.Summary Sample.Details Sample.update_body
             Sample.world).1 = Done (Status 200 (Message "blog updated!"))
  /\ blogs (update Sample.healthy Sample.Summary Sample.Details Sample.update_body
                   Sample.world).2 !! (Sample.update_body !!! "blogId")
     = Some (mkBlog "Hello again" Sample.alice "New world" Sample.old_url)
  /\ Sample.alice <> Sample.bob.
Proof. repeat split; try (vm_compute; reflexivity). discriminate. Qed.

(** ** The theorems at work on the sample world *)

Lemma create_upload_failure_witness :
  validate createBlogSchema Sample.create_body = None
  /\ upload_reply Sample.cloudinary_down (Sample.create_body !!! "photo")
     = inl Sample.network_down
  /\ create Sample.cloudinary_down Sample.Details Sample.summary Sample.create_body
            Sample.world =
       (Done (Next Sample.network_down),
        logged Sample.world [CloudinaryUpload (Sample.create_body !!! "photo")]).
Proof.
  assert (validate createBlogSchema Sample.create_body = None) as Hvalid.
  { vm_compute; reflexivity. }
  assert (upload_reply Sample.cloudinary_down (Sample.create_body !!! "photo")
          = inl Sample.network_down) as Hupload.
  { reflexivity. }
  split; [exact Hvalid|]. split; [exact Hupload|].
  exact (create_upload_failure Sample.cloudinary_down Sample.Details Sample.summary
           Sample.create_body Sample.world Sample.network_down Hvalid Hupload).
Defined.

Lemma create_insert_failure_witness :
  validate createBlogSchema Sample.create_body = None
  /\ upload_reply Sample.insert_fails (Sample.create_body !!! "photo")
     = inr (mkUploadResponse Sample.new_url "sample_new")
  /\ exists w',
       create Sample.insert_fails Sample.Details Sample.summary Sample.create_body
              Sample.world = (Done (Next Sample.store_down), w')
       /\ blogs w' = blogs Sample.world
       /\ assets w' = {[ "sample_new" ]} ∪ assets Sample.world.
Proof.
  assert (validate createBlogSchema Sample.create_body = None) as Hvalid.
  { vm_compute; reflexivity. }
  assert (upload_reply Sample.insert_fails (Sample.create_body !!! "photo")
          = inr (mkUploadResponse Sample.new_url "sample_new")) as Hupload.
  { reflexivity. }
  split; [exact Hvalid|]. split; [exact Hupload|].
  destruct (create_insert_failure Sample.insert_fails Sample.Details Sample.summary
              Sample.create_body Sample.world _ Sample.store_down Hvalid Hupload
              (or_introl eq_refl))
    as (w' & Hcreate & _ & _ & Hblogs & _ & Hassets).
  exists w'. split; [exact Hcreate|]. split; [exact Hblogs|exact Hassets].
Defined.

Lemma getById_absent_witness :
  validate getByIdSchema (Sample.id_params Sample.other_id) = None
  /\ blogs Sample.world !! (Sample.id_params Sample.other_id !!! "id") = None
  /\ (getById Sample.healthy Sample.Summary Sample.users Sample.details
              (Sample.id_params Sample.other_id) Sample.world).1
     = Thrown (TypeError "Cannot read properties of null (reading '_id')").
Proof.
  assert (validate getByIdSchema (Sample.id_params Sample.other_id) = None) as Hvalid.
  { vm_compute; reflexivity. }
  assert (blogs Sample.world !! (Sample.id_params Sample.other_id !!! "id") = None)
    as Habsent.
  { vm_compute; reflexivity. }
  split; [exact Hvalid|]. split; [exact Habsent|].
  destruct (getById_absent Sample.healthy Sample.Summary Sample.users Sample.details
              (Sample.id_params Sample.other_id) Sample.world Hvalid eq_refl Habsent)
    as [-> _].
  reflexivity.
Defined.

Lemma update_new_photo_witness :
  validate updateBlogSchema Sample.update_body_with_photo = None
  /\ Sample.update_body_with_photo !! "photo" = Some "data:image/png;base64,AAAA"
  /\ blogs Sample.world !! (Sample.update_body_with_photo !!! "blogId") = Some Sample.post
  /\ exists w',
       update Sample.cloudinary_down Sample.Summary Sample.Details
              Sample.update_body_with_photo Sample.world
         = (Done (Next Sample.network_down), w')
       /\ blogs w' = blogs Sample.world.
Proof.
  assert (validate updateBlogSchema Sample.update_body_with_photo = None) as Hvalid.
  { vm_compute; reflexivity. }
  assert (Sample.update_body_with_photo !! "photo" = Some "data:image/png;base64,AAAA")
    as Hphoto.
  { vm_compute; reflexivity. }
  assert (blogs Sample.world !! (Sample.update_body_with_photo !!! "blogId")
          = Some Sample.post) as Hblog.
  { vm_compute; reflexivity. }
  assert (photoPath Sample.post <> EmptyString) as Hpath.
  { discriminate. }
  split; [exact Hvalid|]. split; [exact Hphoto|]. split; [exact Hblog|].
  destruct (update_new_photo Sample.cloudinary_down Sample.Summary Sample.Details
              Sample.update_body_with_photo Sample.world Sample.post _
              Hvalid Hphoto eq_refl Hblog Hpath)
    as (r & w' & later & Hupdate & _ & Hfail).
  destruct (Hfail Sample.network_down eq_refl) as (-> & _ & Hblogs & _).
  exists w'. split; [exact Hupdate|exact Hblogs].
Defined.

Lemma update_without_photo_witness :
  validate updateBlogSchema Sample.update_body = None
  /\ Sample.update_body !! "photo" = None
  /\ blogs Sample.world !! (Sample.update_body !!! "blogId") = Some Sample.post
  /\ exists w',
       update Sample.healthy Sample.Summary Sample.Details Sample.update_body
              Sample.world = (Done (Status 200 (Message "blog updated!")), w')
       /\ photoPath <$> blogs w' !! (Sample.update_body !!! "blogId")
          = Some Sample.old_url
       /\ author <$> blogs w' !! (Sample.update_body !!! "blogId")
          = Some Sample.alice.
Proof.
  assert (validate updateBlogSchema Sample.update_body = None) as Hvalid.
  { vm_compute; reflexivity. }
  assert (Sample.update_body !! "photo" = None) as Hphoto.
  { vm_compute; reflexivity. }
  assert (blogs Sample.world !! (Sample.update_body !!! "blogId") = Some Sample.post)
    as Hblog.
  { vm_compute; reflexivity. }
  split; [exact Hvalid|]. split; [exact Hphoto|]. split; [exact Hblog|].
  destruct (update_without_photo Sample.healthy Sample.Summary Sample.Details
              Sample.update_body Sample.world Sample.post Hvalid Hphoto eq_refl Hblog)
    as (r & w' & Hupdate & Hpath & Hauthor & _ & _ & Hok).
  destruct (Hok eq_refl) as [-> _].
  exists w'. split; [exact Hupdate|]. split; [exact Hpath|exact Hauthor].
Defined.

Lemma delete_removes_blog_and_comments_witness :
  (delete Sample.healthy Sample.Summary Sample.Details (Sample.id_params Sample.post_id)
          Sample.world).1 = Done (Status 200 (Message "Blog deleted successfully!"))
  /\ blogs (delete Sample.healthy Sample.Summary Sample.Details
                   (Sample.id_params Sample.post_id) Sample.world).2
       !! (Sample.id_params Sample.post_id !!! "id") = None
  /\ forall c,
       c ∈ comments (delete Sample.healthy Sample.Summary Sample.Details
                            (Sample.id_params Sample.post_id) Sample.world).2 ->
       comment_blog c ≠ Sample.id_params Sample.post_id !!! "id".
Proof.
  assert (delete Sample.healthy Sample.Summary Sample.Details
                 (Sample.id_params Sample.post_id) Sample.world
          = (Done (Status 200 (Message "Blog deleted successfully!")),
             (delete Sample.healthy Sample.Summary Sample.Details
                     (Sample.id_params Sample.post_id) Sample.world).2)) as Hdelete.
  { vm_compute; reflexivity. }
  destruct (delete_removes_blog_and_comments Sample.healthy Sample.Summary Sample.Details
              (Sample.id_params Sample.post_id) Sample.world _ _ Hdelete)
    as (_ & Hgone & _ & Hcomments).
  split; [by rewrite Hdelete|]. split; [exact Hgone|exact Hcomments].
Defined.

Lemma absent_id_not_found_witness :
  validate updateBlogSchema Sample.update_body_absent = None
  /\ blogs Sample.world !! (Sample.update_body_absent !!! "blogId") = None
  /\ validate deleteBlogSchema (Sample.id_params Sample.other_id) = None
  /\ blogs Sample.world !! (Sample.id_params Sample.other_id !!! "id") = None
  /\ (update Sample.healthy Sample.Summary Sample.Details Sample.update_body_absent
             Sample.world).1 = Done (Status 404 (Message "Blog not found"))
  /\ (delete Sample.healthy Sample.Summary Sample.Details
             (Sample.id_params Sample.other_id) Sample.world).1
     = Done (Status 404 (Message "Blog not found"))
  /\ (delete Sample.destroy_fails Sample.Summary Sample.Details
             (Sample.id_params Sample.other_id)
             (delete Sample.healthy Sample.Summary Sample.Details
                     (Sample.id_params Sample.other_id) Sample.world).2).1
     = Done (Status 404 (Message "Blog not found")).
Proof.
  assert (validate updateBlogSchema Sample.update_body_absent = None) as Hvalid.
  { vm_compute; reflexivity. }
  assert (blogs Sample.world !! (Sample.update_body_absent !!! "blogId") = None)
    as Habsent.
  { vm_compute; reflexivity. }
  assert (validate deleteBlogSchema (Sample.id_params Sample.other_id) = None)
    as Hvalid'.
  { vm_compute; reflexivity. }
  assert (blogs Sample.world !! (Sample.id_params Sample.other_id !!! "id") = None)
    as Habsent'.
  { vm_compute; reflexivity. }
  destruct (absent_id_not_found Sample.healthy Sample.destroy_fails Sample.Summary
              Sample.Details Sample.update_body_absent (Sample.id_params Sample.other_id)
              Sample.world Hvalid eq_refl Habsent Hvalid' eq_refl eq_refl Habsent')
    as (Hupdate & Hdelete & Hagain).
  split; [exact Hvalid|]. split; [exact Habsent|]. split; [exact Hvalid'|].
  split; [exact Habsent'|].
  split; [by rewrite Hupdate|]. split; [by rewrite Hdelete|by rewrite Hagain].
Defined.

(** * Further properties of the controller *)

(** ** The public id of the URLs that Cloudinary returns *)

Lemma occurs_app c a b : Js.occurs c (a +:+ b) = Js.occurs c a || Js.occurs c b.
Proof.
  induction a as [|x a IH]; simpl; [reflexivity|].
  by rewrite IH, orb_assoc.
Qed.

(** Splitting around an occurrence of the separator. *)
Lemma split_app sep a b :
  Js.split sep (a +:+ String sep b) = Js.split sep a ++ Js.split sep b.
Proof.
  induction a as [|x a IH]; simpl.
  - by rewrite Ascii.eqb_refl.
  - destruct (Ascii.eqb x sep); [by rewrite IH|].
    rewrite IH. destruct (Js.split sep a) as [|piece pieces] eqn:E; [|reflexivity].
    by apply split_not_nil in E.
Qed.

(** A character that is not in a string is in none of its pieces. *)
Lemma split_pieces_without c d s piece :
  Js.occurs d s = false -> piece ∈ Js.split c s -> Js.occurs d piece = false.
Proof.
  revert piece. induction s as [|x s IH]; simpl; intros piece Hs Hin.
  - apply list_elem_of_singleton in Hin as ->. reflexivity.
  - apply orb_false_iff in Hs as [Hx Hs].
    destruct (Ascii.eqb x c).
    + apply elem_of_cons in Hin as [->|Hin]; [reflexivity|by apply IH].
    + destruct (Js.split c s) as [|p ps]; [by apply list_elem_of_singleton in Hin as ->;
        simpl; rewrite Hx|].
      apply elem_of_cons in Hin as [->|Hin].
      * simpl. rewrite Hx. apply IH; [exact Hs|apply list_elem_of_here].
      * apply IH; [exact Hs|by apply list_elem_of_further].
Qed.

(** No piece of a split has the separator in it. *)
Lemma split_pieces_without_sep c s piece :
  piece ∈ Js.split c s -> Js.occurs c piece = false.
Proof.
  revert piece. induction s as [|x s IH]; simpl; intros piece Hin.
  - apply list_elem_of_singleton in Hin as ->. reflexivity.
  - destruct (Ascii.eqb x c) eqn:Hx.
    + apply elem_of_cons in Hin as [->|Hin]; [reflexivity|by apply IH].
    + destruct (Js.split c s) as [|p ps]; [by apply list_elem_of_singleton in Hin as ->;
        simpl; rewrite Hx|].
      apply elem_of_cons in Hin as [->|Hin].
      * simpl. rewrite Hx. apply IH, list_elem_of_here.
      * by apply IH, list_elem_of_further.
Qed.

Lemma last_segment_app prefix segment :
  Js.occurs "/" segment = false ->
  last (Js.split "/" (prefix +:+ String "/" segment)) = Some segment.
Proof.
  intros H. rewrite split_app, (split_without_sep _ _ H). apply last_snoc.
Qed.

(** Both fragments recover the public id from a URL of the shape that the
    comment of lines 252-253 gives, [prefix/public_id.extension], and from
    one without extension, when the public id has no slash and no dot. *)
Theorem publicId_of_simple_upload prefix publicId extension w :
  Js.occurs "/" publicId = false ->
  Js.occurs "." publicId = false ->
  Js.occurs "/" extension = false ->
  delete_publicId (prefix +:+ "/" +:+ publicId +:+ "." +:+ extension) w
    = (Done (Some publicId), w)
  /\ update_publicId (prefix +:+ "/" +:+ publicId +:+ "." +:+ extension) w
     = (Done (Some publicId), w)
  /\ delete_publicId (prefix +:+ "/" +:+ publicId) w = (Done (Some publicId), w)
  /\ update_publicId (prefix +:+ "/" +:+ publicId) w = (Done (Some publicId), w).
Proof.
  intros Hslash Hdot Hext.
  rewrite !delete_publicId_eq, ?update_publicId_eq.
  unfold first_piece_of_last_segment.
  change ("/" +:+ ?x) with (String "/" x). change ("." +:+ ?x) with (String "." x).
  assert (Js.occurs "/" (publicId +:+ String "." extension) = false) as Hsegment.
  { rewrite occurs_app. simpl. by rewrite Hslash, Hext. }
  rewrite (last_segment_app _ _ Hsegment), (last_segment_app _ _ Hslash).
  rewrite split_app, !(split_without_sep _ _ Hdot). easy.
Qed.

(** The public id that the fragments derive never has a slash or a dot in
    it: an asset stored in a folder, or under a name with a dot, is never
    the one they name. *)
Theorem publicId_has_no_slash_or_dot photoUrl w :
  exists publicId,
    delete_publicId photoUrl w = (Done (Some publicId), w)
    /\ update_publicId photoUrl w = (Done (Some publicId), w)
    /\ Js.occurs "/" publicId = false
    /\ Js.occurs "." publicId = false.
Proof.
  rewrite delete_publicId_eq, update_publicId_eq.
  unfold first_piece_of_last_segment.
  destruct (last (Js.split "/" photoUrl)) as [segment|] eqn:Hlast;
    [|by destruct (last_split_is_Some "/" photoUrl) as [? H]; rewrite H in Hlast].
  assert (Js.occurs "/" segment = false) as Hsegment.
  { apply (split_pieces_without_sep "/" photoUrl). by apply last_Some_elem_of. }
  destruct (split_first_piece "." segment) as (piece & pieces & Hsplit & Hdot).
  exists piece. rewrite Hsplit. repeat split; [|exact Hdot].
  apply (split_pieces_without "." "/" segment); [exact Hsegment|].
  rewrite Hsplit. apply list_elem_of_here.
Qed.

Lemma publicId_of_simple_upload_witness :
  delete_publicId (Sample.upload_prefix +:+ "/" +:+ "sample_old" +:+ "." +:+ "jpg")
                  Sample.world
  = (Done (Some "sample_old"), Sample.world).
Proof.
  exact (proj1 (publicId_of_simple_upload Sample.upload_prefix "sample_old" "jpg"
                  Sample.world eq_refl eq_refl eq_refl)).
Defined.

(** ** What the schemas let through *)

Lemma check_keys_error schema body error :
  check_keys schema body = Some error -> exists key v, error = ValidationError key v.
Proof.
  induction schema as [|[k r] rest IH]; simpl; [discriminate|].
  destruct (check_value k r (body !! k)) as [e|] eqn:E; [|exact IH].
  intros [= <-]. unfold check_value in E.
  destruct (body !! k) as [[|c s]|]; [| |destruct (required r)];
    try destruct (regex r) as [p|]; try destruct (p _); try discriminate;
    injection E as <-; eauto.
Qed.

(** Validation fails with a [ValidationError] and nothing else. *)
Lemma validate_error schema body error :
  validate schema body = Some error -> exists key v, error = ValidationError key v.
Proof.
  unfold validate. destruct (check_keys schema body) as [e|] eqn:E.
  - intros [= <-]. by eapply check_keys_error.
  - destruct (decide _); [discriminate|]. intros [= <-]. eauto.
Qed.

Lemma mongodbIdPattern_not_empty s : mongodbIdPattern s = true -> s <> EmptyString.
Proof. by destruct s. Qed.

(** The bodies that [update] accepts: a title and a content that are not
    empty, an author and a blog id of 24 hexadecimal digits, a photo that is
    left out or not empty, and no other key. *)
Theorem update_body_accepted_iff (body : gmap string string) :
  validate updateBlogSchema body = None <->
  (exists title content author blogId,
      body !! "title" = Some title /\ title <> EmptyString
      /\ body !! "content" = Some content /\ content <> EmptyString
      /\ body !! "author" = Some author /\ mongodbIdPattern author = true
      /\ body !! "blogId" = Some blogId /\ mongodbIdPattern blogId = true)
  /\ body !! "photo" <> Some EmptyString
  /\ dom body ⊆ {[ "title"; "content"; "author"; "blogId"; "photo" ]}.
Proof.
  split.
  - intros Hvalid. pose proof (validate_check_keys _ _ Hvalid) as Hcheck.
    destruct (check_keys_required _ _ "title" (mkRule true None) Hcheck)
      as (title & Htitle & Htitle' & _); [set_solver|reflexivity|].
    destruct (check_keys_required _ _ "content" (mkRule true None) Hcheck)
      as (content & Hcontent & Hcontent' & _); [set_solver|reflexivity|].
    destruct (check_keys_required _ _ "author" (mkRule true (Some mongodbIdPattern)) Hcheck)
      as (author & Hauthor & _ & Hauthor'); [set_solver|reflexivity|].
    destruct (check_keys_required _ _ "blogId" (mkRule true (Some mongodbIdPattern)) Hcheck)
      as (blogId & HblogId & _ & HblogId'); [set_solver|reflexivity|].
    split; [|split].
    + exists title, content, author, blogId. by eauto 10.
    + intros Hphoto.
      by apply (check_keys_present _ _ "photo" (mkRule false None) _ Hcheck) in Hphoto;
        [|set_solver].
    + unfold validate in Hvalid. rewrite Hcheck in Hvalid.
      destruct (decide (unknown_keys updateBlogSchema body = ∅)) as [Hnone|];
        [|discriminate].
      unfold unknown_keys in Hnone. intros k Hk.
      destruct (decide (k ∈ (list_to_set (updateBlogSchema.*1) : gset string)))
        as [Hin|Hout].
      * revert Hin. unfold updateBlogSchema. simpl.
        rewrite !elem_of_union, !elem_of_singleton.
        pose proof (not_elem_of_empty (C:=gset string) k). tauto.
      * exfalso. apply (not_elem_of_empty (C:=gset string) k). rewrite <- Hnone.
        by apply elem_of_difference.
  - intros ((title & content & author & blogId & Htitle & Htitle' & Hcontent & Hcontent'
             & Hauthor & Hauthor' & HblogId & HblogId') & Hphoto & Hdom).
    pose proof (mongodbIdPattern_not_empty _ Hauthor').
    pose proof (mongodbIdPattern_not_empty _ HblogId').
    unfold validate. simpl. rewrite Htitle, Hcontent, Hauthor, HblogId. simpl.
    destruct title; [easy|]. destruct content; [easy|]. simpl.
    destruct author; [easy|]. rewrite Hauthor'.
    destruct blogId; [easy|]. rewrite HblogId'. simpl.
    destruct (body !! "photo") as [[|c photo]|]; [easy| |]; simpl;
      (destruct (decide (unknown_keys updateBlogSchema body = ∅)) as [|Hsome];
       [reflexivity|]; exfalso; apply Hsome; unfold unknown_keys;
       apply set_eq; intros k; rewrite elem_of_difference; split;
       [|by intros ?%not_elem_of_empty];
       intros [Hk%Hdom Hout]; exfalso; apply Hout; revert Hk;
       unfold updateBlogSchema; simpl;
       rewrite !elem_of_union, !elem_of_singleton; tauto).
Qed.

Section Rejected.

Context (env : Env) {User : Type} (SummaryDTO : Type) {DetailsDTO : Type}.
Context (users : gmap string User).
Context (BlogDetailsDTO : option (string * Blog * option User) -> Error + DetailsDTO).

(** An id that is missing, empty or not 24 hexadecimal digits stops [getById]
    and [delete] at the schema: the validation error about [id] goes to
    [next] and no call is made. *)
Theorem malformed_id_is_rejected (params : gmap string string) w :
  (forall id, params !! "id" = Some id -> mongodbIdPattern id = false) ->
  exists violation,
    getById env SummaryDTO users BlogDetailsDTO params w
      = (Done (Next (ValidationError (Some "id") violation)), w)
    /\ delete env SummaryDTO DetailsDTO params w
       = (Done (Next (ValidationError (Some "id") violation)), w).
Proof.
  intros Hid.
  assert (exists violation,
            validate getByIdSchema params = Some (ValidationError (Some "id") violation))
    as (violation & Hvalid).
  { unfold validate. simpl. destruct (params !! "id") as [[|c id]|] eqn:E; simpl; eauto.
    rewrite (Hid _ eq_refl). eauto. }
  exists violation. unfold getById, delete.
  change deleteBlogSchema with getByIdSchema. rewrite Hvalid. easy.
Qed.

(** An update cannot carry an empty photo: the body is refused by the
    schema, and the handler makes no call. *)
Theorem update_rejects_empty_photo (body : gmap string string) w :
  body !! "photo" = Some EmptyString ->
  exists key violation,
    update env SummaryDTO DetailsDTO body w
      = (Done (Next (ValidationError key violation)), w).
Proof.
  intros Hphoto. unfold update.
  destruct (validate updateBlogSchema body) as [error|] eqn:Hvalid.
  - destruct (validate_error _ _ _ Hvalid) as (key & v & ->). eauto.
  - destruct (validated_update_photo _ _ Hvalid Hphoto) as (? & ? & [=]).
Qed.

End Rejected.

Lemma malformed_id_is_rejected_witness :
  (forall id, Sample.id_params "all" !! "id" = Some id -> mongodbIdPattern id = false)
  /\ exists violation,
       delete Sample.healthy Sample.Summary Sample.Details (Sample.id_params "all")
              Sample.world
       = (Done (Next (ValidationError (Some "id") violation)), Sample.world).
Proof.
  assert (forall id, Sample.id_params "all" !! "id" = Some id ->
                     mongodbIdPattern id = false) as Hid.
  { intros id. vm_compute. intros [= <-]. reflexivity. }
  split; [exact Hid|].
  destruct (malformed_id_is_rejected Sample.healthy Sample.Summary Sample.users
              Sample.details (Sample.id_params "all") Sample.world Hid)
    as (violation & _ & Hdelete).
  exists violation. exact Hdelete.
Defined.

Lemma update_rejects_empty_photo_witness :
  Sample.update_body_empty_photo !! "photo" = Some EmptyString
  /\ exists key violation,
       update Sample.healthy Sample.Summary Sample.Details
              Sample.update_body_empty_photo Sample.world
       = (Done (Next (ValidationError key violation)), Sample.world).
Proof.
  assert (Sample.update_body_empty_photo !! "photo" = Some EmptyString) as Hphoto.
  { vm_compute; reflexivity. }
  split; [exact Hphoto|].
  exact (update_rejects_empty_photo Sample.healthy Sample.Summary
           (DetailsDTO := Sample.Details)
           Sample.update_body_empty_photo Sample.world Hphoto).
Defined.

(** ** What the handlers leave alone *)

Section Frames.

Context (R : World -> World -> Prop) (HR : frame_relation R).

Lemma preserves_ret {A} (a : A) : preserves R (ret a).
Proof. intros w. apply HR. Qed.

Lemma preserves_throw {A} e : preserves R (@throw A e).
Proof. intros w. apply HR. Qed.

Lemma preserves_emit ev : preserves R (emit ev).
Proof. intros w. apply HR. Qed.

Lemma preserves_get_blogs : preserves R get_blogs.
Proof. intros w. apply HR. Qed.

Lemma preserves_get_assets : preserves R get_assets.
Proof. intros w. apply HR. Qed.

Lemma preserves_bind {A B} (m : M A) (k : A -> M B) :
  preserves R m -> (forall a, preserves R (k a)) -> preserves R (bind m k).
Proof.
  intros Hm Hk w. unfold bind. specialize (Hm w).
  destruct (m w) as [[a|e] w1]; simpl in *; [|exact Hm].
  destruct HR as (_ & Htrans & _). exact (Htrans _ _ _ Hm (Hk a w1)).
Qed.

Lemma preserves_attempt {A} (m : M A) : preserves R m -> preserves R (attempt m).
Proof.
  intros Hm w. unfold attempt. specialize (Hm w).
  by destruct (m w) as [[a|e] w1].
Qed.

Lemma preserves_update_publicId photoUrl : preserves R (update_publicId photoUrl).
Proof. intros w. rewrite update_publicId_eq. apply HR. Qed.

Lemma preserves_delete_publicId photoUrl : preserves R (delete_publicId photoUrl).
Proof. intros w. rewrite delete_publicId_eq. apply HR. Qed.

End Frames.

(** Takes a goal [preserves R m] apart along the binds, the [try] blocks and
    the case distinctions of [m], down to the writes to the stores and to
    [save], whose write depends on what it reads. *)
Ltac frame HR :=
  unfold uploader_upload, uploader_destroy, Blog_findOne_populate, Blog_findOne,
    Blog_updateOne, Blog_deleteOne, Comment_deleteMany, update_remove_old,
    delete_callback, console_error, console_log, new_BlogDTO, new_BlogDetailsDTO;
  repeat first
    [ match goal with |- preserves _ (Blog_save _ _) => idtac end
    | apply (preserves_ret _ HR)
    | apply (preserves_throw _ HR)
    | apply (preserves_emit _ HR)
    | apply (preserves_get_blogs _ HR)
    | apply (preserves_get_assets _ HR)
    | apply (preserves_update_publicId _ HR)
    | apply (preserves_delete_publicId _ HR)
    | apply preserves_attempt
    | apply (preserves_bind _ HR); [|intros ?]
    | match goal with
      | |- preserves _ (match ?x with _ => _ end) => destruct x
      end ].

Lemma stores_kept_frame : frame_relation stores_kept.
Proof.
  unfold stores_kept. split; [easy|]. split; [|easy].
  intros w1 w2 w3 (-> & -> & ->) (-> & -> & ->). easy.
Qed.

Lemma documents_kept_frame : frame_relation documents_kept.
Proof.
  unfold documents_kept. split; [easy|]. split; [|easy].
  intros w1 w2 w3 (H1 & -> & Ha) (H2 & -> & Ha'). split; [|split]; [eauto|easy|].
  by etrans.
Qed.

Lemma only_rewrites_frame id : frame_relation (only_rewrites id).
Proof.
  unfold only_rewrites. split; [easy|]. split; [|easy].
  intros w1 w2 w3 (-> & H1 & -> & ->) (-> & H2 & -> & ->).
  repeat split. intros k Hk. by rewrite H2, H1.
Qed.

Lemma only_removes_frame id : frame_relation (only_removes id).
Proof.
  unfold only_removes. split; [|split].
  - intros w. repeat split; eauto.
  - intros w1 w2 w3 (H1 & Hid1 & Hc1 & Hin1 & Ha1) (H2 & Hid2 & Hc2 & Hin2 & Ha2).
    split; [|split; [|split; [|split]]].
    + intros k Hk. by rewrite H2, H1.
    + destruct Hid2 as [->| ->]; [exact Hid1|by right].
    + by rewrite Hc2, Hc1.
    + eauto.
    + by etrans.
  - intros w ev. simpl. repeat split; eauto.
Qed.

Section Kept.

Context (env : Env) {User SummaryDTO DetailsDTO : Type}.
Context (users : gmap string User).
Context (BlogDTO : string -> Blog -> Error + SummaryDTO).
Context (BlogDetailsDTO : option (string * Blog * option User) -> Error + DetailsDTO).

(** However [create] ends, every document stored before is stored unchanged
    after, the comments are the same, and no asset has been removed. *)
Theorem create_keeps_what_is_stored (body : gmap string string) w :
  (forall k b, blogs w !! k = Some b ->
               blogs (create env DetailsDTO BlogDTO body w).2 !! k = Some b)
  /\ comments (create env DetailsDTO BlogDTO body w).2 = comments w
  /\ assets w ⊆ assets (create env DetailsDTO BlogDTO body w).2.
Proof.
  revert w. change (preserves documents_kept (create env DetailsDTO BlogDTO body)).
  pose proof documents_kept_frame as HR.
  unfold create. frame HR.
  - intros w. unfold documents_kept. simpl. repeat split; [easy|set_solver].
  - intros w. unfold documents_kept, Blog_save, bind, get_blogs. rewrite emit_eq.
    destruct (save_reply env _) as [e|id]; simpl; [easy|].
    destruct (blogs w !! id) eqn:E; simpl; [easy|].
    split; [|easy]. intros k b Hk.
    rewrite lookup_insert_ne; [exact Hk|congruence].
Qed.

(** However [update] ends, the same ids are stored, no document but the one
    named by [blogId] has changed, that one has the author it had, and the
    comments are the same. *)
Theorem update_only_rewrites_its_document (body : gmap string string) w :
  dom (blogs (update env SummaryDTO DetailsDTO body w).2) = dom (blogs w)
  /\ (forall k, k ≠ body !!! "blogId" ->
                blogs (update env SummaryDTO DetailsDTO body w).2 !! k = blogs w !! k)
  /\ author <$> blogs (update env SummaryDTO DetailsDTO body w).2 !! (body !!! "blogId")
     = author <$> blogs w !! (body !!! "blogId")
  /\ comments (update env SummaryDTO DetailsDTO body w).2 = comments w.
Proof.
  revert w.
  change (preserves (only_rewrites (body !!! "blogId"))
                    (update env SummaryDTO DetailsDTO body)).
  pose proof (only_rewrites_frame (body !!! "blogId")) as HR.
  unfold update. frame HR; intros w; unfold only_rewrites; simpl; try easy.
  all: split; [apply dom_alter_L|]; split;
    [by intros k Hk; apply lookup_alter_ne|]; split; [|reflexivity];
    rewrite lookup_alter_eq; by destruct (blogs w !! (body !!! "blogId")).
Qed.

(** However [delete] ends, no document but the one named by [id] has gone or
    changed, the comments on other posts are the same and in the same order,
    no comment has appeared, and no asset has appeared. *)
Theorem delete_only_removes_its_document (params : gmap string string) w :
  (forall k, k ≠ params !!! "id" ->
             blogs (delete env SummaryDTO DetailsDTO params w).2 !! k = blogs w !! k)
  /\ filter (fun c => comment_blog c ≠ params !!! "id")
            (comments (delete env SummaryDTO DetailsDTO params w).2)
     = filter (fun c => comment_blog c ≠ params !!! "id") (comments w)
  /\ (forall c, c ∈ comments (delete env SummaryDTO DetailsDTO params w).2 ->
                c ∈ comments w)
  /\ assets (delete env SummaryDTO DetailsDTO params w).2 ⊆ assets w.
Proof.
  assert (preserves (only_removes (params !!! "id"))
                    (delete env SummaryDTO DetailsDTO params)) as H.
  { pose proof (only_removes_frame (params !!! "id")) as HR.
    unfold delete. frame HR; intros w0; unfold only_removes; simpl.
    - repeat split; eauto. by apply subseteq_difference_l.
    - split; [by intros k Hk; apply lookup_delete_ne|].
      split; [right; apply lookup_delete_eq|]. repeat split; eauto.
    - split; [easy|]. split; [by left|].
      split; [by rewrite list_filter_filter_l|].
      split; [|easy]. intros c Hc%list_elem_of_filter. tauto. }
  destruct (H w) as (H1 & _ & H2 & H3 & H4). easy.
Qed.

(** [getById] reads: however it ends, the collections and the asset store
    are as they were. *)
Theorem getById_reads_only (params : gmap string string) w :
  blogs (getById env SummaryDTO users BlogDetailsDTO params w).2 = blogs w
  /\ comments (getById env SummaryDTO users BlogDetailsDTO params w).2 = comments w
  /\ assets (getById env SummaryDTO users BlogDetailsDTO params w).2 = assets w.
Proof.
  revert w. change (preserves stores_kept (getById env SummaryDTO users BlogDetailsDTO params)).
  pose proof stores_kept_frame as HR.
  unfold getById. frame HR.
Qed.


End Kept.

(** ** Creating a post and reading it back *)

Section Stored.

Context (env : Env) {User SummaryDTO DetailsDTO : Type}.
Context (users : gmap string User).
Context (BlogDTO : string -> Blog -> Error + SummaryDTO).
Context (BlogDetailsDTO : option (string * Blog * option User) -> Error + DetailsDTO).

Lemma Blog_save_inserts newBlog w id :
  save_reply env newBlog = inr id ->
  blogs w !! id = None ->
  Blog_save env newBlog w =
    (Done id,
     mkWorld (<[id := newBlog]> (blogs w)) (comments w) (assets w)
             (trace w ++ [BlogSave newBlog])).
Proof.
  intros H Hid. unfold Blog_save, bind, get_blogs. rewrite emit_eq, H. simpl.
  rewrite Hid. reflexivity.
Qed.

(** The whole of a create call in which both services answer. *)
Lemma create_answered body w response id :
  validate createBlogSchema body = None ->
  upload_reply env (body !!! "photo") = inr response ->
  save_reply env (mkBlog (body !!! "title") (body !!! "author") (body !!! "content")
                         (url response)) = inr id ->
  blogs w !! id = None ->
  create env DetailsDTO BlogDTO body w =
    (match BlogDTO id (mkBlog (body !!! "title") (body !!! "author") (body !!! "content")
                              (url response)) with
     | inr blogDto => Done (Status 201 (BlogSummary blogDto))
     | inl error => Thrown error
     end,
     mkWorld (<[id := mkBlog (body !!! "title") (body !!! "author") (body !!! "content")
                             (url response)]> (blogs w))
             (comments w)
             ({[public_id response]} ∪ assets w)
             (trace w ++
                [CloudinaryUpload (body !!! "photo");
                 BlogSave (mkBlog (body !!! "title") (body !!! "author")
                                  (body !!! "content") (url response))])).
Proof.
  intros Hvalid Hupload Hsave Hfresh. unfold create. rewrite Hvalid.
  unfold bind at 1. unfold attempt at 1.
  rewrite (uploader_upload_resolves _ _ _ _ Hupload).
  unfold bind at 1. unfold attempt at 1. unfold bind at 1.
  rewrite (Blog_save_inserts _ (mkWorld (blogs w) _ _ _) _ Hsave Hfresh).
  unfold ret at 1. unfold bind, new_BlogDTO. simpl. rewrite <- app_assoc.
  by destruct (BlogDTO id _).
Qed.

(** The whole of a [getById] call that finds the document. *)
Lemma getById_answered params w blog :
  validate getByIdSchema params = None ->
  findOne_fault env (params !!! "id") = None ->
  blogs w !! (params !!! "id") = Some blog ->
  getById env SummaryDTO users BlogDetailsDTO params w =
    (match BlogDetailsDTO (Some (params !!! "id", blog, users !! author blog)) with
     | inr blogDto => Done (Status 200 (BlogDetails blogDto))
     | inl error => Thrown error
     end,
     logged w [BlogFindOne (params !!! "id")]).
Proof.
  intros Hvalid Hfind Hblog. unfold getById. rewrite Hvalid.
  unfold bind, attempt, Blog_findOne_populate, bind.
  rewrite (Blog_findOne_answers _ _ _ Hfind), Hblog.
  unfold ret, new_BlogDetailsDTO. by destruct (BlogDetailsDTO _).
Qed.

(** When the upload and the insert succeed, [create] has stored, under the
    new id, a document with the title, the author and the content of the
    request and the URL of the upload as photo path; the uploaded asset is in
    the asset store; the answer is 201 with the projection of the document.
    When the projection throws, the document is stored all the same and the
    error is left unhandled. *)
Theorem create_stores_the_post body w response id :
  validate createBlogSchema body = None ->
  upload_reply env (body !!! "photo") = inr response ->
  save_reply env (mkBlog (body !!! "title") (body !!! "author") (body !!! "content")
                         (url response)) = inr id ->
  blogs w !! id = None ->
  (create env DetailsDTO BlogDTO body w).1 =
    match BlogDTO id (mkBlog (body !!! "title") (body !!! "author") (body !!! "content")
                             (url response)) with
    | inr blogDto => Done (Status 201 (BlogSummary blogDto))
    | inl error => Thrown error
    end
  /\ blogs (create env DetailsDTO BlogDTO body w).2 !! id
     = Some (mkBlog (body !!! "title") (body !!! "author") (body !!! "content")
                    (url response))
  /\ public_id response ∈ assets (create env DetailsDTO BlogDTO body w).2
  /\ trace (create env DetailsDTO BlogDTO body w).2 =
       trace w ++
         [CloudinaryUpload (body !!! "photo");
          BlogSave (mkBlog (body !!! "title") (body !!! "author") (body !!! "content")
                           (url response))].
Proof.
  intros Hvalid Hupload Hsave Hfresh.
  rewrite (create_answered _ _ _ _ Hvalid Hupload Hsave Hfresh). simpl.
  split; [reflexivity|]. split; [apply lookup_insert_eq|]. split; [|reflexivity].
  apply elem_of_union_l, elem_of_singleton. reflexivity.
Qed.

(** A post that [create] has stored is what [getById] finds under the new
    id: the projection it answers with is made from the title, the author
    and the content of the create request and the URL of the upload. *)
Theorem create_then_getById body params w response :
  validate createBlogSchema body = None ->
  upload_reply env (body !!! "photo") = inr response ->
  save_reply env (mkBlog (body !!! "title") (body !!! "author") (body !!! "content")
                         (url response)) = inr (params !!! "id") ->
  blogs w !! (params !!! "id") = None ->
  validate getByIdSchema params = None ->
  findOne_fault env (params !!! "id") = None ->
  (getById env SummaryDTO users BlogDetailsDTO params
           (create env DetailsDTO BlogDTO body w).2).1 =
    match BlogDetailsDTO
            (Some (params !!! "id",
                   mkBlog (body !!! "title") (body !!! "author") (body !!! "content")
                          (url response),
                   users !! (body !!! "author"))) with
    | inr blogDto => Done (Status 200 (BlogDetails blogDto))
    | inl error => Thrown error
    end.
Proof.
  intros Hvalid Hupload Hsave Hfresh Hvalid' Hfind.
  rewrite (create_answered _ _ _ _ Hvalid Hupload Hsave Hfresh). simpl.
  rewrite (getById_answered params _
             (mkBlog (body !!! "title") (body !!! "author") (body !!! "content")
                     (url response)) Hvalid' Hfind); [reflexivity|].
  simpl. apply lookup_insert_eq.
Qed.

(** For a stored id [getById] answers 200 with the projection of the
    document and of the user that its author field names, [null] when there
    is no such user; when the projection throws, the error is left
    unhandled. The lookup is the only call. *)
Theorem getById_found params w blog :
  validate getByIdSchema params = None ->
  findOne_fault env (params !!! "id") = None ->
  blogs w !! (params !!! "id") = Some blog ->
  getById env SummaryDTO users BlogDetailsDTO params w =
    (match BlogDetailsDTO (Some (params !!! "id", blog, users !! author blog)) with
     | inr blogDto => Done (Status 200 (BlogDetails blogDto))
     | inl error => Thrown error
     end,
     logged w [BlogFindOne (params !!! "id")]).
Proof. apply getById_answered. Qed.

(** A lookup that MongoDB fails stops [getById], [update] and [delete]
    alike: the error goes to [next] and nothing else is called. *)
Theorem lookup_failure_is_passed_on (params body : gmap string string) w error error' :
  validate getByIdSchema params = None ->
  findOne_fault env (params !!! "id") = Some error ->
  validate updateBlogSchema body = None ->
  findOne_fault env (body !!! "blogId") = Some error' ->
  getById env SummaryDTO users BlogDetailsDTO params w
    = (Done (Next error), logged w [BlogFindOne (params !!! "id")])
  /\ delete env SummaryDTO DetailsDTO params w
     = (Done (Next error), logged w [BlogFindOne (params !!! "id")])
  /\ update env SummaryDTO DetailsDTO body w
     = (Done (Next error'), logged w [BlogFindOne (body !!! "blogId")]).
Proof.
  intros Hvalid Hfind Hvalid' Hfind'. split; [|split].
  - unfold getById. rewrite Hvalid. unfold bind, attempt, Blog_findOne_populate, bind.
    by rewrite (Blog_findOne_throws _ _ _ _ Hfind).
  - unfold delete. change deleteBlogSchema with getByIdSchema. rewrite Hvalid.
    unfold bind, attempt. by rewrite (Blog_findOne_throws _ _ _ _ Hfind).
  - unfold update. rewrite Hvalid'. unfold bind, attempt.
    by rewrite (Blog_findOne_throws _ _ _ _ Hfind').
Qed.

End Stored.

(** ** Replacing the photo of a post *)

Section Replaced.

Context (env : Env) (SummaryDTO DetailsDTO : Type).

(** Step 2 of [update] on a document with a photo path, in full. *)
Lemma update_remove_old_answered blog w old :
  photoPath blog <> EmptyString ->
  first_piece_of_last_segment (photoPath blog) = Some old ->
  update_remove_old env blog w =
    (Done tt,
     mkWorld (blogs w) (comments w)
             match destroy_fault env (Some old) with
             | Some _ => assets w
             | None => assets w ∖ {[old]}
             end
             (trace w ++
                CloudinaryDestroy (Some old) ::
                match destroy_fault env (Some old) with
                | Some error => [ConsoleError "Cloudinary old image deletion error:" error]
                | None => []
                end)).
Proof.
  intros Hpath Hold. unfold update_remove_old.
  destruct (photoPath blog) as [|c rest] eqn:E; [easy|].
  unfold bind at 1. rewrite update_publicId_eq, Hold.
  unfold bind, attempt, uploader_destroy, bind. rewrite emit_eq.
  destruct (destroy_fault env (Some old)) as [error|]; simpl.
  - unfold console_error. rewrite emit_eq, logged_logged. reflexivity.
  - reflexivity.
Qed.

(** The whole of an update that brings a photo which Cloudinary stores. *)
Lemma update_with_photo_answered body w blog photo response old :
  validate updateBlogSchema body = None ->
  body !! "photo" = Some photo ->
  findOne_fault env (body !!! "blogId") = None ->
  blogs w !! (body !!! "blogId") = Some blog ->
  photoPath blog <> EmptyString ->
  first_piece_of_last_segment (photoPath blog) = Some old ->
  upload_reply env photo = inr response ->
  update env SummaryDTO DetailsDTO body w =
    (match updateOne_fault env (body !!! "blogId") with
     | Some dbError => Done (Next dbError)
     | None => Done (Status 200 (Message "blog updated!"))
     end,
     mkWorld
       match updateOne_fault env (body !!! "blogId") with
       | Some _ => blogs w
       | None => alter (fun b => mkBlog (body !!! "title") (author b) (body !!! "content")
                                        (url response))
                       (body !!! "blogId") (blogs w)
       end
       (comments w)
       ({[public_id response]} ∪
          match destroy_fault env (Some old) with
          | Some _ => assets w
          | None => assets w ∖ {[old]}
          end)
       (trace w ++
          BlogFindOne (body !!! "blogId") ::
          CloudinaryDestroy (Some old) ::
          match destroy_fault env (Some old) with
          | Some error => [ConsoleError "Cloudinary old image deletion error:" error]
          | None => []
          end ++
          [CloudinaryUpload photo;
           BlogUpdateOne (body !!! "blogId") (body !!! "title") (body !!! "content")
                         (url response)])).
Proof.
  intros Hvalid Hphoto Hfind Hblog Hpath Hold Hupload.
  destruct (validated_update_photo _ _ Hvalid Hphoto) as (c & rest & ->).
  unfold update. rewrite Hvalid, Hphoto.
  unfold bind at 1. unfold attempt at 1.
  rewrite (Blog_findOne_answers _ _ _ Hfind). simpl blogs. rewrite Hblog.
  unfold bind at 1. unfold bind at 1.
  rewrite (update_remove_old_answered _ _ _ Hpath Hold).
  unfold bind at 1. unfold attempt at 1.
  rewrite (uploader_upload_resolves _ _ _ _ Hupload).
  unfold ret at 1. unfold bind at 1. unfold attempt, Blog_updateOne, bind.
  rewrite emit_eq.
  destruct (updateOne_fault env (body !!! "blogId")); simpl.
  all: unfold ret, logged; simpl; by rewrite <- !app_assoc.
Qed.

(** A successful update with a new photo asks for the removal of the old
    asset once, uploads the new photo once, and then writes the title and
    the content of the request and the URL of the upload to the document,
    whose author stays; the new asset is in the asset store. *)
Theorem update_replaces_the_photo body w blog photo response :
  validate updateBlogSchema body = None ->
  body !! "photo" = Some photo ->
  findOne_fault env (body !!! "blogId") = None ->
  blogs w !! (body !!! "blogId") = Some blog ->
  photoPath blog <> EmptyString ->
  upload_reply env photo = inr response ->
  updateOne_fault env (body !!! "blogId") = None ->
  exists w',
    update env SummaryDTO DetailsDTO body w
      = (Done (Status 200 (Message "blog updated!")), w')
    /\ blogs w' !! (body !!! "blogId")
       = Some (mkBlog (body !!! "title") (author blog) (body !!! "content")
                      (url response))
    /\ public_id response ∈ assets w'
    /\ trace w' =
         trace w ++
           BlogFindOne (body !!! "blogId") ::
           CloudinaryDestroy (first_piece_of_last_segment (photoPath blog)) ::
           match destroy_fault env (first_piece_of_last_segment (photoPath blog)) with
           | Some error => [ConsoleError "Cloudinary old image deletion error:" error]
           | None => []
           end ++
           [CloudinaryUpload photo;
            BlogUpdateOne (body !!! "blogId") (body !!! "title") (body !!! "content")
                          (url response)].
Proof.
  intros Hvalid Hphoto Hfind Hblog Hpath Hupload Hwrite.
  destruct (first_piece_defined (photoPath blog)) as (old & Hold & _).
  rewrite (update_with_photo_answered _ _ _ _ _ _
             Hvalid Hphoto Hfind Hblog Hpath Hold Hupload), Hwrite, Hold.
  eexists. split; [reflexivity|]. simpl.
  split; [by rewrite lookup_alter_eq, Hblog|]. split; [|reflexivity].
  apply elem_of_union_l, elem_of_singleton. reflexivity.
Qed.

(** When [updateOne] fails after the upload, the error goes to [next] and the
    document keeps its old photo path, while the asset store has changed:
    the new asset is stored, referenced by no document, and the old asset
    is gone if its removal succeeded. *)
Theorem update_write_failure_after_upload body w blog photo response dbError :
  validate updateBlogSchema body = None ->
  body !! "photo" = Some photo ->
  findOne_fault env (body !!! "blogId") = None ->
  blogs w !! (body !!! "blogId") = Some blog ->
  photoPath blog <> EmptyString ->
  upload_reply env photo = inr response ->
  updateOne_fault env (body !!! "blogId") = Some dbError ->
  exists w' old,
    update env SummaryDTO DetailsDTO body w = (Done (Next dbError), w')
    /\ first_piece_of_last_segment (photoPath blog) = Some old
    /\ blogs w' = blogs w
    /\ public_id response ∈ assets w'
    /\ (destroy_fault env (Some old) = None -> old ≠ public_id response ->
        old ∉ assets w').
Proof.
  intros Hvalid Hphoto Hfind Hblog Hpath Hupload Hwrite.
  destruct (first_piece_defined (photoPath blog)) as (old & Hold & _).
  rewrite (update_with_photo_answered _ _ _ _ _ _
             Hvalid Hphoto Hfind Hblog Hpath Hold Hupload), Hwrite.
  eexists _, old. split; [reflexivity|]. simpl.
  split; [exact Hold|]. split; [reflexivity|]. split.
  - apply elem_of_union_l, elem_of_singleton. reflexivity.
  - intros -> Hne. rewrite elem_of_union, elem_of_singleton, elem_of_difference,
      elem_of_singleton. tauto.
Qed.

End Replaced.

(** ** Deleting a post, step by step *)

Section Removed.

Context (env : Env) (SummaryDTO DetailsDTO : Type).

(** The whole of a delete call on a stored id once Cloudinary has answered
    the removal: what follows depends on [deleteOne] and [deleteMany]. *)
Lemma delete_after_removal params w blog publicId :
  validate deleteBlogSchema params = None ->
  findOne_fault env (params !!! "id") = None ->
  blogs w !! (params !!! "id") = Some blog ->
  first_piece_of_last_segment (photoPath blog) = Some publicId ->
  destroy_fault env (Some publicId) = None ->
  delete env SummaryDTO DetailsDTO params w =
    (match deleteOne_fault env (params !!! "id"), deleteMany_fault env (params !!! "id") with
     | Some error, _ => Done (Next error)
     | None, Some error => Done (Next error)
     | None, None => Done (Status 200 (Message "Blog deleted successfully!"))
     end,
     mkWorld
       match deleteOne_fault env (params !!! "id") with
       | Some _ => blogs w
       | None => base.delete (params !!! "id") (blogs w)
       end
       match deleteOne_fault env (params !!! "id"), deleteMany_fault env (params !!! "id") with
       | None, None => filter (fun c => comment_blog c ≠ params !!! "id") (comments w)
       | _, _ => comments w
       end
       (assets w ∖ {[publicId]})
       (trace w ++
          [BlogFindOne (params !!! "id");
           CloudinaryDestroy (Some publicId);
           ConsoleLog ("Cloudinary result for " +:+ publicId +:+ ":")
                      (Some (if decide (publicId ∈ assets w) then "ok" else "not found"));
           BlogDeleteOne (params !!! "id")] ++
          match deleteOne_fault env (params !!! "id") with
          | Some _ => []
          | None => [CommentDeleteMany (params !!! "id")]
          end)).
Proof.
  intros Hvalid Hfind Hblog HpublicId Hdestroy. unfold delete. rewrite Hvalid.
  unfold bind at 1. unfold attempt at 1. unfold bind at 1.
  rewrite (Blog_findOne_answers _ _ _ Hfind). simpl blogs. rewrite Hblog.
  unfold bind at 1. rewrite delete_publicId_eq, HpublicId.
  unfold bind at 1. unfold uploader_destroy, bind at 1. rewrite emit_eq.
  rewrite Hdestroy.
  unfold bind, get_assets, set_assets, delete_callback, console_log, ret,
    Blog_deleteOne, Comment_deleteMany, bind.
  rewrite !emit_eq. simpl.
  destruct (deleteOne_fault env (params !!! "id")); simpl;
    [unfold logged; simpl; by rewrite <- !app_assoc|].
  destruct (deleteMany_fault env (params !!! "id")); simpl;
    unfold logged; simpl; by rewrite <- !app_assoc.
Qed.

(** A delete in which every call is answered makes its calls in this order:
    the lookup, the removal of the asset, [deleteOne], [deleteMany]. After it
    the asset named by the public id is out of the asset store, the document
    is out of the collection, and the comments left are those on other
    posts, in their order. *)
Theorem delete_runs_to_the_end params w blog :
  validate deleteBlogSchema params = None ->
  findOne_fault env (params !!! "id") = None ->
  blogs w !! (params !!! "id") = Some blog ->
  destroy_fault env (first_piece_of_last_segment (photoPath blog)) = None ->
  deleteOne_fault env (params !!! "id") = None ->
  deleteMany_fault env (params !!! "id") = None ->
  exists publicId,
    first_piece_of_last_segment (photoPath blog) = Some publicId
    /\ delete env SummaryDTO DetailsDTO params w =
         (Done (Status 200 (Message "Blog deleted successfully!")),
          mkWorld (base.delete (params !!! "id") (blogs w))
                  (filter (fun c => comment_blog c ≠ params !!! "id") (comments w))
                  (assets w ∖ {[publicId]})
                  (trace w ++
                     [BlogFindOne (params !!! "id");
                      CloudinaryDestroy (Some publicId);
                      ConsoleLog ("Cloudinary result for " +:+ publicId +:+ ":")
                                 (Some (if decide (publicId ∈ assets w)
                                        then "ok" else "not found"));
                      BlogDeleteOne (params !!! "id");
                      CommentDeleteMany (params !!! "id")])).
Proof.
  intros Hvalid Hfind Hblog Hdestroy Hone Hmany.
  destruct (first_piece_defined (photoPath blog)) as (publicId & HpublicId & _).
  exists publicId. split; [exact HpublicId|]. rewrite HpublicId in Hdestroy.
  rewrite (delete_after_removal _ _ _ _ Hvalid Hfind Hblog HpublicId Hdestroy).
  by rewrite Hone, Hmany.
Qed.

(** When [deleteMany] fails, the error goes to [next] after the document has
    been deleted: the post is gone and all its comments are still stored. *)
Theorem delete_cascade_failure_leaves_comments params w blog error :
  validate deleteBlogSchema params = None ->
  findOne_fault env (params !!! "id") = None ->
  blogs w !! (params !!! "id") = Some blog ->
  destroy_fault env (first_piece_of_last_segment (photoPath blog)) = None ->
  deleteOne_fault env (params !!! "id") = None ->
  deleteMany_fault env (params !!! "id") = Some error ->
  exists w',
    delete env SummaryDTO DetailsDTO params w = (Done (Next error), w')
    /\ blogs w' !! (params !!! "id") = None
    /\ comments w' = comments w.
Proof.
  intros Hvalid Hfind Hblog Hdestroy Hone Hmany.
  destruct (first_piece_defined (photoPath blog)) as (publicId & HpublicId & _).
  rewrite HpublicId in Hdestroy.
  rewrite (delete_after_removal _ _ _ _ Hvalid Hfind Hblog HpublicId Hdestroy).
  rewrite Hone, Hmany. eexists. split; [reflexivity|]. simpl.
  split; [apply lookup_delete_eq|reflexivity].
Qed.

(** When [deleteOne] fails, the error goes to [next] after the asset has been
    removed: the document and its comments are still stored, [deleteMany] is
    not called, and the asset that the photo path names is gone. *)
Theorem delete_record_failure_after_removal params w blog error :
  validate deleteBlogSchema params = None ->
  findOne_fault env (params !!! "id") = None ->
  blogs w !! (params !!! "id") = Some blog ->
  destroy_fault env (first_piece_of_last_segment (photoPath blog)) = None ->
  deleteOne_fault env (params !!! "id") = Some error ->
  exists w' publicId,
    delete env SummaryDTO DetailsDTO params w = (Done (Next error), w')
    /\ first_piece_of_last_segment (photoPath blog) = Some publicId
    /\ blogs w' = blogs w
    /\ comments w' = comments w
    /\ (publicId ∉ assets w')
    /\ exists result,
         trace w' =
           trace w ++
             [BlogFindOne (params !!! "id");
              CloudinaryDestroy (Some publicId);
              ConsoleLog ("Cloudinary result for " +:+ publicId +:+ ":") (Some result);
              BlogDeleteOne (params !!! "id")].
Proof.
  intros Hvalid Hfind Hblog Hdestroy Hone.
  destruct (first_piece_defined (photoPath blog)) as (publicId & HpublicId & _).
  rewrite HpublicId in Hdestroy.
  rewrite (delete_after_removal _ _ _ _ Hvalid Hfind Hblog HpublicId Hdestroy).
  rewrite Hone. eexists _, publicId. split; [reflexivity|]. simpl.
  split; [exact HpublicId|]. split; [reflexivity|]. split; [reflexivity|]. split.
  - rewrite elem_of_difference, elem_of_singleton. tauto.
  - eexists. reflexivity.
Qed.

(** [delete] has no guard on the photo path: for every stored document it
    asks Cloudinary, right after the lookup, to remove what the fragment
    derives, which for an empty path is the empty string. *)
Theorem delete_always_asks_for_removal params w blog :
  validate deleteBlogSchema params = None ->
  findOne_fault env (params !!! "id") = None ->
  blogs w !! (params !!! "id") = Some blog ->
  (exists later,
     trace (delete env SummaryDTO DetailsDTO params w).2 =
       trace w ++
         [BlogFindOne (params !!! "id");
          CloudinaryDestroy (first_piece_of_last_segment (photoPath blog))] ++ later)
  /\ (photoPath blog = EmptyString ->
      first_piece_of_last_segment (photoPath blog) = Some EmptyString).
Proof.
  intros Hvalid Hfind Hblog. split; [|by intros ->].
  destruct (destroy_fault env (first_piece_of_last_segment (photoPath blog)))
    as [error|] eqn:Hdestroy.
  - rewrite (delete_destroy_failure _ _ _ _ _ _ _ Hvalid Hfind Hblog Hdestroy).
    simpl. eexists [_; _]. reflexivity.
  - destruct (first_piece_defined (photoPath blog)) as (publicId & HpublicId & _).
    rewrite HpublicId in *.
    rewrite (delete_after_removal _ _ _ _ Hvalid Hfind Hblog HpublicId Hdestroy).
    simpl. eexists (_ :: _ :: _). reflexivity.
Qed.

(** A delete repeated after a delete that answered 200 answers 404, and its
    lookup is its only call. *)
Theorem delete_twice_not_found env' params w body w' :
  delete env SummaryDTO DetailsDTO params w = (Done (Status 200 body), w') ->
  findOne_fault env' (params !!! "id") = None ->
  delete env' SummaryDTO DetailsDTO params w' =
    (Done (Status 404 (Message "Blog not found")),
     logged w' [BlogFindOne (params !!! "id")]).
Proof.
  intros Hfirst Hfind.
  destruct (delete_success_inv _ _ _ _ _ _ _ _ Hfirst eq_refl)
    as (blog & Hvalid & _ & Hblogs & _).
  unfold delete. rewrite Hvalid. unfold bind, attempt.
  rewrite (Blog_findOne_answers _ _ _ Hfind). simpl.
  by rewrite Hblogs, lookup_delete_eq.
Qed.

End Removed.

(** ** Listing the posts *)

Section Listed.

Context {SummaryDTO : Type} (BlogDTO : string -> Blog -> Error + SummaryDTO).

Lemma getAll_loop_projects blogs dtos blogsDto w :
  Forall2 (fun d dto => BlogDTO d.1 d.2 = inr dto) blogs dtos ->
  getAll_loop BlogDTO blogs blogsDto w = (Done (blogsDto ++ dtos), w).
Proof.
  intros H. revert blogsDto. induction H as [|[id b] dto blogs dtos Hd _ IH];
    intros blogsDto; simpl.
  - by rewrite app_nil_r.
  - unfold bind, new_BlogDTO. simpl in Hd. rewrite Hd. simpl.
    rewrite IH, <- app_assoc. reflexivity.
Qed.

Lemma getAll_loop_stops before id blog after dtos blogsDto error w :
  Forall2 (fun d dto => BlogDTO d.1 d.2 = inr dto) before dtos ->
  BlogDTO id blog = inl error ->
  getAll_loop BlogDTO (before ++ (id, blog) :: after) blogsDto w = (Thrown error, w).
Proof.
  intros H Herror. revert blogsDto. induction H as [|[id' b] dto blogs dtos Hd _ IH];
    intros blogsDto; simpl.
  - unfold bind, new_BlogDTO. by rewrite Herror.
  - unfold bind, new_BlogDTO. simpl in Hd. rewrite Hd. simpl. apply IH.
Qed.

(** When [find] resolves and every document can be projected, [getAll]
    answers 200 with the projections of the documents, one for each and in
    the order in which [find] returned them, and changes nothing. *)
Theorem getAll_lists_every_document blogs dtos w :
  Forall2 (fun d dto => BlogDTO d.1 d.2 = inr dto) blogs dtos ->
  getAll BlogDTO (inr blogs) w = (Done (ListStatus 200 dtos), w).
Proof.
  intros H. unfold getAll, bind, attempt, ret.
  by rewrite (getAll_loop_projects _ _ [] w H).
Qed.

(** In [getAll] the projections are made inside the [try] block: the error
    of the first document that cannot be projected goes to [next], as the
    error of a failed [find] does, and no list is sent. *)
Theorem getAll_passes_errors_to_next before id blog after dtos error error' w :
  Forall2 (fun d dto => BlogDTO d.1 d.2 = inr dto) before dtos ->
  BlogDTO id blog = inl error ->
  getAll BlogDTO (inr (before ++ (id, blog) :: after)) w = (Done (ListNext error), w)
  /\ getAll BlogDTO (inl error') w = (Done (ListNext error'), w).
Proof.
  intros H Herror. split; [|reflexivity].
  unfold getAll, bind, attempt, ret.
  by rewrite (getAll_loop_stops _ _ _ after _ [] _ w H Herror).
Qed.

End Listed.

(** ** The further theorems at work on the sample world *)

Lemma create_stores_the_post_witness :
  (create Sample.healthy Sample.Details Sample.summary Sample.create_body Sample.world).1
  = Done (Status 201 (BlogSummary
            (Sample.other_id, mkBlog "Hello" Sample.alice "World" Sample.new_url)))
  /\ blogs (create Sample.healthy Sample.Details Sample.summary Sample.create_body
                   Sample.world).2 !! Sample.other_id
     = Some (mkBlog "Hello" Sample.alice "World" Sample.new_url).
Proof.
  assert (validate createBlogSchema Sample.create_body = None) as Hvalid.
  { vm_compute; reflexivity. }
  assert (blogs Sample.world !! Sample.other_id = None) as Hfresh.
  { vm_compute; reflexivity. }
  destruct (create_stores_the_post Sample.healthy (DetailsDTO := Sample.Details)
              Sample.summary Sample.create_body Sample.world
              (mkUploadResponse Sample.new_url "sample_new") Sample.other_id
              Hvalid eq_refl eq_refl Hfresh) as (Hanswer & Hstored & _).
  split; [exact Hanswer|exact Hstored].
Defined.

Lemma create_then_getById_witness :
  (getById Sample.healthy Sample.Summary Sample.users Sample.details
           (Sample.id_params Sample.other_id)
           (create Sample.healthy Sample.Details Sample.summary Sample.create_body
                   Sample.world).2).1
  = Done (Status 200 (BlogDetails
            (Sample.other_id, mkBlog "Hello" Sample.alice "World" Sample.new_url,
             Some "alice"))).
Proof.
  assert (validate createBlogSchema Sample.create_body = None) as Hvalid.
  { vm_compute; reflexivity. }
  assert (blogs Sample.world !! (Sample.id_params Sample.other_id !!! "id") = None)
    as Hfresh.
  { vm_compute; reflexivity. }
  assert (validate getByIdSchema (Sample.id_params Sample.other_id) = None) as Hvalid'.
  { vm_compute; reflexivity. }
  rewrite (create_then_getById Sample.healthy Sample.users Sample.summary Sample.details
             Sample.create_body (Sample.id_params Sample.other_id) Sample.world
             (mkUploadResponse Sample.new_url "sample_new")
             Hvalid eq_refl eq_refl Hfresh Hvalid' eq_refl).
  vm_compute; reflexivity.
Defined.

Lemma getById_found_witness :
  getById Sample.healthy Sample.Summary Sample.users Sample.details
          (Sample.id_params Sample.post_id) Sample.world
  = (Done (Status 200 (BlogDetails (Sample.post_id, Sample.post, Some "alice"))),
     logged Sample.world [BlogFindOne Sample.post_id]).
Proof.
  assert (validate getByIdSchema (Sample.id_params Sample.post_id) = None) as Hvalid.
  { vm_compute; reflexivity. }
  assert (blogs Sample.world !! (Sample.id_params Sample.post_id !!! "id")
          = Some Sample.post) as Hblog.
  { vm_compute; reflexivity. }
  rewrite (getById_found Sample.healthy (SummaryDTO := Sample.Summary) Sample.users
             Sample.details (Sample.id_params Sample.post_id) Sample.world Sample.post
             Hvalid eq_refl Hblog).
  vm_compute; reflexivity.
Defined.

Lemma lookup_failure_is_passed_on_witness :
  delete Sample.lookup_fails Sample.Summary Sample.Details
         (Sample.id_params Sample.post_id) Sample.world
  = (Done (Next Sample.store_down),
     logged Sample.world [BlogFindOne (Sample.id_params Sample.post_id !!! "id")]).
Proof.
  assert (validate getByIdSchema (Sample.id_params Sample.post_id) = None) as Hvalid.
  { vm_compute; reflexivity. }
  assert (validate updateBlogSchema Sample.update_body = None) as Hvalid'.
  { vm_compute; reflexivity. }
  exact (proj1 (proj2
           (lookup_failure_is_passed_on Sample.lookup_fails
              (SummaryDTO := Sample.Summary) (DetailsDTO := Sample.Details)
              Sample.users Sample.details
              (Sample.id_params Sample.post_id) Sample.update_body Sample.world
              Sample.store_down Sample.store_down Hvalid eq_refl Hvalid' eq_refl))).
Defined.

Lemma update_replaces_the_photo_witness :
  exists w',
    update Sample.healthy Sample.Summary Sample.Details Sample.update_body_with_photo
           Sample.world = (Done (Status 200 (Message "blog updated!")), w')
    /\ blogs w' !! (Sample.update_body_with_photo !!! "blogId")
       = Some (mkBlog (Sample.update_body_with_photo !!! "title") (author Sample.post)
                      (Sample.update_body_with_photo !!! "content") Sample.new_url).
Proof.
  assert (validate updateBlogSchema Sample.update_body_with_photo = None) as Hvalid.
  { vm_compute; reflexivity. }
  assert (Sample.update_body_with_photo !! "photo" = Some "data:image/png;base64,AAAA")
    as Hphoto.
  { vm_compute; reflexivity. }
  assert (blogs Sample.world !! (Sample.update_body_with_photo !!! "blogId")
          = Some Sample.post) as Hblog.
  { vm_compute; reflexivity. }
  assert (photoPath Sample.post <> EmptyString) as Hpath.
  { discriminate. }
  destruct (update_replaces_the_photo Sample.healthy Sample.Summary Sample.Details
              Sample.update_body_with_photo Sample.world Sample.post _
              (mkUploadResponse Sample.new_url "sample_new")
              Hvalid Hphoto eq_refl Hblog Hpath eq_refl eq_refl)
    as (w' & Hupdate & Hstored & _).
  exists w'. split; [exact Hupdate|exact Hstored].
Defined.

Lemma update_write_failure_after_upload_witness :
  exists w',
    update Sample.update_fails Sample.Summary Sample.Details
           Sample.update_body_with_photo Sample.world
      = (Done (Next Sample.store_down), w')
    /\ blogs w' = blogs Sample.world
    /\ "sample_new" ∈ assets w'.
Proof.
  assert (validate updateBlogSchema Sample.update_body_with_photo = None) as Hvalid.
  { vm_compute; reflexivity. }
  assert (Sample.update_body_with_photo !! "photo" = Some "data:image/png;base64,AAAA")
    as Hphoto.
  { vm_compute; reflexivity. }
  assert (blogs Sample.world !! (Sample.update_body_with_photo !!! "blogId")
          = Some Sample.post) as Hblog.
  { vm_compute; reflexivity. }
  assert (photoPath Sample.post <> EmptyString) as Hpath.
  { discriminate. }
  destruct (update_write_failure_after_upload Sample.update_fails Sample.Summary
              Sample.Details Sample.update_body_with_photo Sample.world Sample.post _
              (mkUploadResponse Sample.new_url "sample_new") Sample.store_down
              Hvalid Hphoto eq_refl Hblog Hpath eq_refl eq_refl)
    as (w' & old & Hupdate & _ & Hblogs & Hasset & _).
  exists w'. split; [exact Hupdate|]. split; [exact Hblogs|exact Hasset].
Defined.

Lemma update_photo_without_old_path_witness :
  exists later,
    trace (update Sample.healthy Sample.Summary Sample.Details
                  Sample.update_body_with_photo Sample.bare_world).2 =
      trace Sample.bare_world ++
        [BlogFindOne (Sample.update_body_with_photo !!! "blogId");
         CloudinaryUpload "data:image/png;base64,AAAA"] ++ later
    /\ forall publicId, CloudinaryDestroy publicId ∉ later.
Proof.
  assert (validate updateBlogSchema Sample.update_body_with_photo = None) as Hvalid.
  { vm_compute; reflexivity. }
  assert (Sample.update_body_with_photo !! "photo" = Some "data:image/png;base64,AAAA")
    as Hphoto.
  { vm_compute; reflexivity. }
  assert (blogs Sample.bare_world !! (Sample.update_body_with_photo !!! "blogId")
          = Some Sample.bare_post) as Hblog.
  { vm_compute; reflexivity. }
  exact (update_photo_without_old_path Sample.healthy Sample.Summary Sample.Details
           Sample.update_body_with_photo Sample.bare_world Sample.bare_post _
           Hvalid Hphoto eq_refl Hblog eq_refl).
Defined.

Lemma delete_runs_to_the_end_witness :
  exists publicId,
    first_piece_of_last_segment (photoPath Sample.post) = Some publicId
    /\ (delete Sample.healthy Sample.Summary Sample.Details
               (Sample.id_params Sample.post_id) Sample.world).1
       = Done (Status 200 (Message "Blog deleted successfully!"))
    /\ assets (delete Sample.healthy Sample.Summary Sample.Details
                      (Sample.id_params Sample.post_id) Sample.world).2
       = assets Sample.world ∖ {[publicId]}.
Proof.
  assert (validate deleteBlogSchema (Sample.id_params Sample.post_id) = None) as Hvalid.
  { vm_compute; reflexivity. }
  assert (blogs Sample.world !! (Sample.id_params Sample.post_id !!! "id")
          = Some Sample.post) as Hblog.
  { vm_compute; reflexivity. }
  destruct (delete_runs_to_the_end Sample.healthy Sample.Summary Sample.Details
              (Sample.id_params Sample.post_id) Sample.world Sample.post
              Hvalid eq_refl Hblog eq_refl eq_refl eq_refl)
    as (publicId & HpublicId & Hdelete).
  exists publicId. split; [exact HpublicId|]. rewrite Hdelete. split; reflexivity.
Defined.

Lemma delete_cascade_failure_leaves_comments_witness :
  exists w',
    delete Sample.deleteMany_fails Sample.Summary Sample.Details
           (Sample.id_params Sample.post_id) Sample.world
      = (Done (Next Sample.store_down), w')
    /\ blogs w' !! (Sample.id_params Sample.post_id !!! "id") = None
    /\ comments w' = comments Sample.world.
Proof.
  assert (validate deleteBlogSchema (Sample.id_params Sample.post_id) = None) as Hvalid.
  { vm_compute; reflexivity. }
  assert (blogs Sample.world !! (Sample.id_params Sample.post_id !!! "id")
          = Some Sample.post) as Hblog.
  { vm_compute; reflexivity. }
  exact (delete_cascade_failure_leaves_comments Sample.deleteMany_fails Sample.Summary
           Sample.Details (Sample.id_params Sample.post_id) Sample.world Sample.post
           Sample.store_down Hvalid eq_refl Hblog eq_refl eq_refl eq_refl).
Defined.

Lemma delete_record_failure_after_removal_witness :
  exists w',
    delete Sample.deleteOne_fails Sample.Summary Sample.Details
           (Sample.id_params Sample.post_id) Sample.world
      = (Done (Next Sample.store_down), w')
    /\ blogs w' = blogs Sample.world
    /\ comments w' = comments Sample.world.
Proof.
  assert (validate deleteBlogSchema (Sample.id_params Sample.post_id) = None) as Hvalid.
  { vm_compute; reflexivity. }
  assert (blogs Sample.world !! (Sample.id_params Sample.post_id !!! "id")
          = Some Sample.post) as Hblog.
  { vm_compute; reflexivity. }
  destruct (delete_record_failure_after_removal Sample.deleteOne_fails Sample.Summary
              Sample.Details (Sample.id_params Sample.post_id) Sample.world Sample.post
              Sample.store_down Hvalid eq_refl Hblog eq_refl eq_refl)
    as (w' & publicId & Hdelete & _ & Hblogs & Hcomments & _).
  exists w'. split; [exact Hdelete|]. split; [exact Hblogs|exact Hcomments].
Defined.

Lemma delete_always_asks_for_removal_witness :
  exists later,
    trace (delete Sample.healthy Sample.Summary Sample.Details
                  (Sample.id_params Sample.post_id) Sample.bare_world).2 =
      trace Sample.bare_world ++
        [BlogFindOne (Sample.id_params Sample.post_id !!! "id");
         CloudinaryDestroy (Some EmptyString)] ++ later.
Proof.
  assert (validate deleteBlogSchema (Sample.id_params Sample.post_id) = None) as Hvalid.
  { vm_compute; reflexivity. }
  assert (blogs Sample.bare_world !! (Sample.id_params Sample.post_id !!! "id")
          = Some Sample.bare_post) as Hblog.
  { vm_compute; reflexivity. }
  exact (proj1 (delete_always_asks_for_removal Sample.healthy Sample.Summary
                  Sample.Details (Sample.id_params Sample.post_id) Sample.bare_world
                  Sample.bare_post Hvalid eq_refl Hblog)).
Defined.

Lemma delete_twice_not_found_witness :
  (delete Sample.healthy Sample.Summary Sample.Details (Sample.id_params Sample.post_id)
          (delete Sample.healthy Sample.Summary Sample.Details
                  (Sample.id_params Sample.post_id) Sample.world).2).1
  = Done (Status 404 (Message "Blog not found")).
Proof.
  assert (delete Sample.healthy Sample.Summary Sample.Details
                 (Sample.id_params Sample.post_id) Sample.world
          = (Done (Status 200 (Message "Blog deleted successfully!")),
             (delete Sample.healthy Sample.Summary Sample.Details
                     (Sample.id_params Sample.post_id) Sample.world).2)) as Hfirst.
  { vm_compute; reflexivity. }
  by rewrite (delete_twice_not_found Sample.healthy Sample.Summary Sample.Details
                Sample.healthy (Sample.id_params Sample.post_id) Sample.world _ _
                Hfirst eq_refl).
Defined.

Lemma getAll_lists_every_document_witness :
  getAll Sample.summary (inr Sample.found_posts) Sample.world
  = (Done (ListStatus 200 [(Sample.post_id, Sample.post);
                           (Sample.other_id, Sample.dotted_post)]),
     Sample.world).
Proof.
  apply (getAll_lists_every_document Sample.summary Sample.found_posts).
  repeat constructor.
Defined.

Lemma getAll_passes_errors_to_next_witness :
  getAll Sample.strict_summary (inr Sample.found_with_bare_post) Sample.world
  = (Done (ListNext (TypeError "photoPath is empty")), Sample.world).
Proof.
  exact (proj1 (getAll_passes_errors_to_next Sample.strict_summary
                  [(Sample.post_id, Sample.post)] Sample.alice Sample.bare_post
                  [(Sample.other_id, Sample.dotted_post)]
                  [(Sample.post_id, Sample.post)]
                  (TypeError "photoPath is empty") Sample.store_down Sample.world
                  ltac:(repeat constructor) eq_refl)).
Defined.
